(** * go-evm: a shallow embedding of the interpreter helpers, the state overlay
    and the transition driver, with the properties stated by the specification.

    Layout: Part I holds the definitions, one module per Go package or type
    ([GoInt], [Evmc], [Err], [Word], [Evm], [Bytes], [Precompiled], the data
    types of package state, [Txn], [Transition]) and the sample data of the
    examples ([Samples]); Part II holds the lemmas and theorems. *)

From Stdlib Require Import ZArith Lia List Bool String.
From stdpp Require Import base option list gmap.

Local Open Scope Z_scope.

(* ===================================================================== *)
(** * Part I: definitions                                                  *)
(* ===================================================================== *)

(** ** Fixed-width Go integers, written as [Z] with the wrap-around explicit *)
Module GoInt.

Definition MaxUint64 : Z := 2 ^ 64 - 1.

(** The value a [uint64] holds after an operation whose exact result is [x]. *)
Definition wrap64 (x : Z) : Z := x mod 2 ^ 64.

Definition add64 (a b : Z) : Z := wrap64 (a + b).
Definition sub64 (a b : Z) : Z := wrap64 (a - b).
Definition mul64 (a b : Z) : Z := wrap64 (a * b).

(** [int64(x)] for a [uint64] (or exact) [x]: the two's complement reading. *)
Definition int64 (x : Z) : Z :=
  let r := x mod 2 ^ 64 in if r <? 2 ^ 63 then r else r - 2 ^ 64.

(** [uint64(x)] for an [int64] [x]. *)
Definition uint64 (x : Z) : Z := x mod 2 ^ 64.

(** [len(s)] as a Go [int]. *)
Definition len {A : Type} (s : list A) : Z := Z.of_nat (length s).

End GoInt.

(** ** The evmc binding types (external package [evmc]) *)
Module Evmc.

(** [evmc.Address] is [[20]byte] and [evmc.Hash] is [[32]byte]; both are
    modelled by the big-endian number they spell. *)
Definition Address : Type := Z.
Definition Hash : Type := Z.

(** [evmc.Revision] is an [int32] with named constants. *)
Definition Revision : Type := Z.
Definition Frontier : Revision := 0.
Definition Homestead : Revision := 1.
Definition SpuriousDragon : Revision := 3.
Definition Byzantium : Revision := 4.
Definition Constantinople : Revision := 5.
Definition Petersburg : Revision := 6.
Definition Istanbul : Revision := 7.

Inductive CallKind : Type :=
| Call | DelegateCall | CallCode | Create | Create2.

Inductive StorageStatus : Type :=
| StorageUnchanged | StorageModified | StorageModifiedAgain
| StorageAdded | StorageDeleted.

End Evmc.

(** ** Go [error] values of the packages [evm], [state] and [precompiled] *)
Module Err.

(** The sentinel errors of package [evm] (state.go, lines 31-41). *)
Inductive evm_error : Type :=
| errOutOfGas
| errStackUnderflow
| errStackOverflow
| ErrExecutionReverted
| errGasUintOverflow
| errWriteProtection
| errInvalidJump
| errOpCodeNotFound
| errReturnDataOutOfBounds.

(** An [error] seen by the driver: a sentinel of package [evm], the sentinel
    [errNotEnoughFunds] of package [state], or a value made on the spot by
    [errors.New] / [fmt.Errorf], identified by its message. *)
Inductive error : Type :=
| evmError (e : evm_error)
| errNotEnoughFunds
| errorString (msg : string).

#[global] Instance evm_error_eq_dec : EqDecision evm_error.
Proof. solve_decision. Defined.

#[global] Instance error_eq_dec : EqDecision error.
Proof. solve_decision. Defined.

(** [err == evm.ErrExecutionReverted] *)
Definition isReverted (e : error) : bool :=
  match e with evmError ErrExecutionReverted => true | _ => false end.

End Err.

(** ** 256-bit word helpers of package [evm] (instructions file, lines 1303-1320) *)
Module Word.

(** [big.Int.BitLen]: the length of the absolute value in bits, 0 for 0. *)
Definition BitLen (x : Z) : Z :=
  if x =? 0 then 0 else Z.log2 (Z.abs x) + 1.

(** [big.Int.Sign] *)
Definition Sign (x : Z) : Z := Z.sgn x.

(** [big.Int.IsUint64] *)
Definition IsUint64 (x : Z) : bool := (0 <=? x) && (x <=? GoInt.MaxUint64).

(** [big.Int.Uint64]: the low 64 bits of the absolute value. *)
Definition Uint64 (x : Z) : Z := Z.abs x mod 2 ^ 64.

Definition tt256 : Z := Z.shiftl 1 256.
Definition tt256m1 : Z := tt256 - 1.

Definition toU256 (x : Z) : Z :=
  if (Sign x <? 0) || (BitLen x >? 256) then Z.land x tt256m1 else x.

Definition to256 (x : Z) : Z :=
  if BitLen x >? 255 then x - tt256 else x.

(** A stack word: an unsigned 256-bit value. *)
Definition isU256 (x : Z) : Prop := 0 <= x < 2 ^ 256.

End Word.

(** ** Package [evm]: the frame state and the embedded instructions *)
Module Evm.
Import GoInt Err Word.

(** A [*big.Int] that may be [nil] ([pop] and [top] return [nil] on an empty
    stack); calling a method on [nil] panics, which the handlers below render
    as the result [None]. *)
Definition bigInt : Type := option Z.



(** The read-only part of [evmc.HostContext] that the embedded instructions
    consult before they decide to call [Host.Call]. *)
Record HostContext : Type := mkHost {
  AccountExists : Evmc.Address -> bool;
  GetBalance : Evmc.Address -> Evmc.Hash
}.

(** [type state struct] (state.go, lines 45-80). [stack] holds the live slots
    [stack[0:sp]], the top of the stack first; the [bitmap] field, whose type
    is declared outside src/, is read by no function embedded here. *)
Record state : Type := mkState {
  ip : Z;
  code : list Z;
  tmp : list Z;
  host : HostContext;
  Address : Evmc.Address;
  Caller : Evmc.Address;
  Depth : Z;
  Value : bigInt;
  Input : list Z;
  Static : bool;
  rev : Evmc.Revision;
  memory : list Z;
  lastGasCost : Z;
  stack : list Z;
  err : option evm_error;
  stop : bool;
  gas : Z;
  returnData : list Z;
  ret : list Z
}.

Definition set_memory (v : list Z) (c : state) : state :=
  mkState c.(ip) c.(code) c.(tmp) c.(host) c.(Address) c.(Caller) c.(Depth)
    c.(Value) c.(Input) c.(Static) c.(rev) v c.(lastGasCost) c.(stack)
    c.(err) c.(stop) c.(gas) c.(returnData) c.(ret).

Definition set_lastGasCost (v : Z) (c : state) : state :=
  mkState c.(ip) c.(code) c.(tmp) c.(host) c.(Address) c.(Caller) c.(Depth)
    c.(Value) c.(Input) c.(Static) c.(rev) c.(memory) v c.(stack)
    c.(err) c.(stop) c.(gas) c.(returnData) c.(ret).

Definition set_stack (v : list Z) (c : state) : state :=
  mkState c.(ip) c.(code) c.(tmp) c.(host) c.(Address) c.(Caller) c.(Depth)
    c.(Value) c.(Input) c.(Static) c.(rev) c.(memory) c.(lastGasCost) v
    c.(err) c.(stop) c.(gas) c.(returnData) c.(ret).

Definition set_gas (v : Z) (c : state) : state :=
  mkState c.(ip) c.(code) c.(tmp) c.(host) c.(Address) c.(Caller) c.(Depth)
    c.(Value) c.(Input) c.(Static) c.(rev) c.(memory) c.(lastGasCost) c.(stack)
    c.(err) c.(stop) v c.(returnData) c.(ret).


Definition isRevision (r : Evmc.Revision) (c : state) : bool := r <=? c.(rev).

(** [halt] is used by no instruction embedded here; [exit] records the error
    and stops the loop ([err] is never [nil] at its call sites). *)
Definition exit (e : evm_error) (c : state) : state :=
  mkState c.(ip) c.(code) c.(tmp) c.(host) c.(Address) c.(Caller) c.(Depth)
    c.(Value) c.(Input) c.(Static) c.(rev) c.(memory) c.(lastGasCost) c.(stack)
    (Some e) true c.(gas) c.(returnData) c.(ret).


Definition pop (c : state) : bigInt * state :=
  match c.(stack) with
  | [] => (None, c)
  | o :: rest => (Some o, set_stack rest c)
  end.

Definition top (c : state) : bigInt := head c.(stack).




Definition consumeGas (g : Z) (c : state) : bool * state :=
  if c.(gas) <? g then (false, exit errOutOfGas c)
  else (true, set_gas (c.(gas) - g) c).



(** [extendByteSlice]: the slice is stretched to [needLen] bytes; the bytes
    past the old length are those of the backing array, which [reset] left
    zeroed, or fresh zeroes from [make]. *)
Definition extendByteSlice (b : list Z) (needLen : Z) : list Z :=
  take (Z.to_nat needLen) (b ++ repeat 0 (Z.to_nat (needLen - len b))).

(** [checkMemory] (state.go, lines 258-294). *)
Definition checkMemory (offset size : bigInt) (c : state) : option (bool * state) :=
  match size with
  | None => None
  | Some size =>
    if Sign size =? 0 then Some (true, c) else
    match offset with
    | None => None
    | Some offset =>
      if negb (IsUint64 offset) || negb (IsUint64 size)
      then Some (false, exit errGasUintOverflow c)
      else
        let o := Uint64 offset in
        let s := Uint64 size in
        if (o >? 0xffffffffe0) || (s >? 0xffffffffe0)
        then Some (false, exit errGasUintOverflow c)
        else
          let m := len c.(memory) in
          let newSize := add64 o s in
          if m <? newSize then
            let w := add64 newSize 31 / 32 in
            let newCost := add64 (mul64 3 w) (mul64 w w / 512) in
            let cost := sub64 newCost c.(lastGasCost) in
            let c1 := set_lastGasCost newCost c in
            match consumeGas cost c1 with
            | (false, c2) => Some (false, exit errOutOfGas c2)
            | (true, c2) =>
              Some (true, set_memory (extendByteSlice c2.(memory) (mul64 w 32)) c2)
            end
          else Some (true, c)
    end
  end.


Definition wordSize : Z := 32.

(** [opSignExtension] (instructions file, lines 288-314): [x] is the slot
    left on top of the stack and is rewritten in place. *)
Definition opSignExtension (c : state) : option state :=
  match pop c with
  | (None, _) => None
  | (Some ext, c1) =>
    let x := top c1 in
    if ext >? wordSize then Some c1 else
    match x with
    | None => Some c1
    | Some x =>
      let bit := add64 (mul64 (Uint64 ext) 8) 7 in
      let mask := Z.shiftl 1 bit - 1 in
      let x' := if Z.testbit x bit then Z.lor x (Z.lnot mask) else Z.land x mask in
      Some (set_stack (toU256 x' :: tl c1.(stack)) c1)
    end
  end.


(** The arguments of one [c.host.Call(...)]. *)
Record CallRequest : Type := mkCallRequest {
  req_kind : Evmc.CallKind;
  req_recipient : Evmc.Address;
  req_sender : Evmc.Address;
  req_value : Evmc.Hash;
  req_input : list Z;
  req_gas : Z;
  req_depth : Z;
  req_static : bool;
  req_salt : Evmc.Hash;
  req_codeAddress : Evmc.Address
}.






(** A frame used by the examples: empty code, memory and stack. *)
Definition host0 : HostContext := mkHost (fun _ => false) (fun _ => 0).

Definition state0 (r : Evmc.Revision) (depth g : Z) (stk : list Z) : state :=
  mkState 0 [] [] host0 0 0 depth None [] false r [] 0 stk None false g [] [].

(** The memory cost formula of the specification, for [n] words. *)
Definition memoryCost (n : Z) : Z := 3 * n + n * n / 512.

(** *** Definitions used by the statements about the call instructions *)








End Evm.

(** ** Byte slices and the fixed-size arrays they are copied into *)
Module Bytes.

(** The number a byte slice spells, big-endian ([big.Int.SetBytes]). *)
Definition be_value (b : list Z) : Z := fold_left (fun acc x => acc * 256 + x) b 0.

(** The [n] bytes that spell [v] modulo [256^n], big-endian. *)
Fixpoint be_bytes (n : nat) (v : Z) : list Z :=
  match n with
  | O => []
  | S n' => be_bytes n' (v / 256) ++ [v mod 256]
  end.

(** [h[:]] for a hash and [addr[:]] for an address. *)
Definition hashBytes (h : Evmc.Hash) : list Z := be_bytes 32 h.
Definition addressBytes (a : Evmc.Address) : list Z := be_bytes 20 a.

(** [bytesToHash] of package [state]: the last 32 bytes, right-aligned. *)
Definition bytesToHash (b : list Z) : Evmc.Hash :=
  be_value (drop (length b - 32)%nat b).

(** [copy(res[:], b)] into a zero hash: the first 32 bytes, left-aligned. *)
Definition copyToHash (b : list Z) : Evmc.Hash :=
  be_value (take 32%nat (b ++ repeat 0 32%nat)).

(** [copy(res[:], b)] into a zero address: the first 20 bytes. *)
Definition copyToAddress (b : list Z) : Evmc.Address :=
  be_value (take 20%nat (b ++ repeat 0 20%nat)).

End Bytes.

(** ** Package [precompiled] and the dispatch table of package [state] *)
Module Precompiled.
Import GoInt Err.

(** [type contract interface] (precompile dispatch file, lines 47-50). *)
Record contract : Type := mkContract {
  Gas : list Z -> Evmc.Revision -> Z;
  Run : list Z -> list Z * option error
}.

(** What the code takes from outside the repository's src/: the hash and
    RLP libraries, the cryptographic kernels run by the precompiled
    contracts, and the two contracts ([ModExp], [Blake2f]) whose files are
    not under src/. *)
Class Externals : Type := mkExternals {
  Keccak256 : list Z -> list Z;
  rlpAddressNonce : Evmc.Address -> Z -> list Z;
  Ecrecover_Run : list Z -> list Z * option error;
  Sha256h_Run : list Z -> list Z * option error;
  Ripemd160h_Run : list Z -> list Z * option error;
  Bn256Add_Run : list Z -> list Z * option error;
  Bn256Mul_Run : list Z -> list Z * option error;
  Bn256Pairing_Run : list Z -> list Z * option error;
  ModExp : contract;
  Blake2f : contract
}.

(** [baseGasCalc] (base.go, lines 83-85). *)
Definition baseGasCalc (input : list Z) (base word : Z) : Z :=
  add64 base (mul64 (wrap64 (len input + 31) / 32) word).

(** [Identity] (base.go, lines 45-54). *)
Definition Identity : contract :=
  mkContract (fun input _ => baseGasCalc input 15 3) (fun i => (i, None)).

Section Contracts.
Context `{X : Externals}.

Definition Ecrecover : contract :=
  mkContract (fun _ _ => 3000) Ecrecover_Run.

Definition Sha256h : contract :=
  mkContract (fun input _ => baseGasCalc input 60 12) Sha256h_Run.

Definition Ripemd160h : contract :=
  mkContract (fun input _ => baseGasCalc input 600 120) Ripemd160h_Run.

Definition Bn256Add : contract :=
  mkContract (fun _ rev => if rev >=? Evmc.Istanbul then 150 else 500) Bn256Add_Run.

Definition Bn256Mul : contract :=
  mkContract (fun _ rev => if rev >=? Evmc.Istanbul then 6000 else 40000) Bn256Mul_Run.

Definition Bn256Pairing : contract :=
  mkContract
    (fun input rev =>
       let baseGas := if rev >=? Evmc.Istanbul then 45000 else 100000 in
       let pointGas := if rev >=? Evmc.Istanbul then 34000 else 80000 in
       add64 baseGas (mul64 pointGas (wrap64 (len input / 192))))
    Bn256Pairing_Run.

Definition addr1 : Evmc.Address := 1.
Definition addr2 : Evmc.Address := 2.
Definition addr3 : Evmc.Address := 3.
Definition addr4 : Evmc.Address := 4.
Definition addr5 : Evmc.Address := 5.
Definition addr6 : Evmc.Address := 6.
Definition addr7 : Evmc.Address := 7.
Definition addr8 : Evmc.Address := 8.
Definition addr9 : Evmc.Address := 9.

(** The map [precompiledContracts] as [init] fills it. *)
Definition precompiledContracts (a : Evmc.Address) : option contract :=
  if a =? addr1 then Some Ecrecover
  else if a =? addr2 then Some Sha256h
  else if a =? addr3 then Some Ripemd160h
  else if a =? addr4 then Some Identity
  else if a =? addr5 then Some ModExp
  else if a =? addr6 then Some Bn256Add
  else if a =? addr7 then Some Bn256Mul
  else if a =? addr8 then Some Bn256Pairing
  else if a =? addr9 then Some Blake2f
  else None.

(** [runPrecompiled] (precompile dispatch file, lines 53-68); calling a
    method of the nil interface that a missing key yields panics. *)
Definition runPrecompiled (codeAddress : Evmc.Address) (input : list Z) (gas : Z)
    (rev : Evmc.Revision) : option (list Z * Z * option error) :=
  match precompiledContracts codeAddress with
  | None => None
  | Some contract =>
    let gasCost := contract.(Gas) input rev in
    if gas <? gasCost then Some ([], 0, Some (errorString "out of gas"))
    else
      let gas := gas - gasCost in
      match contract.(Run) input with
      | (_, Some err) => Some ([], 0, Some err)
      | (returnValue, None) => Some (returnValue, int64 gas, None)
      end
  end.

End Contracts.

(** Stand-ins for the external functions, used by the examples. *)
Definition noRun : list Z -> list Z * option error := fun _ => ([], None).

Definition sampleExternals : Externals :=
  mkExternals (fun b => repeat 0 31%nat ++ [(len b + 101) mod 256])
    (fun a n => repeat a (S (Z.to_nat n))) noRun noRun noRun noRun noRun noRun
    (mkContract (fun _ _ => 0) noRun) (mkContract (fun _ _ => 0) noRun).

End Precompiled.

(** ** Package [state]: the data types *)

Module Account.
(** [type Account struct]; [Balance] is a non-nil [*big.Int]. *)
Record t : Type := mk {
  Nonce : Z;
  Balance : Z;
  Root : Evmc.Hash;
  CodeHash : list Z;
  Code : list Z
}.

(** [Account.Copy]: the balance goes through [Bytes], which drops the sign;
    [Code] is not copied. *)
Definition Copy (a : t) : t :=
  mk a.(Nonce) (Z.abs a.(Balance)) a.(Root) a.(CodeHash) [].
End Account.

Module StateObject.
(** [type stateObject struct]; [Txn] is the storage overlay, a tree from
    32-byte keys to 32-byte values or nil, or nil when not yet created. *)
Record t : Type := mk {
  Account : Account.t;
  Code : list Z;
  Suicide : bool;
  Deleted : bool;
  DirtyCode : bool;
  Txn : option (gmap Evmc.Hash (option Evmc.Hash))
}.

Definition set_Account (a : Account.t) (s : t) : t :=
  mk a s.(Code) s.(Suicide) s.(Deleted) s.(DirtyCode) s.(Txn).

Definition set_Balance (b : Z) (s : t) : t :=
  set_Account
    (Account.mk s.(Account).(Account.Nonce) b s.(Account).(Account.Root)
       s.(Account).(Account.CodeHash) s.(Account).(Account.Code)) s.

Definition set_Nonce (n : Z) (s : t) : t :=
  set_Account
    (Account.mk n s.(Account).(Account.Balance) s.(Account).(Account.Root)
       s.(Account).(Account.CodeHash) s.(Account).(Account.Code)) s.

(** [stateObject.Copy] *)
Definition Copy (s : t) : t :=
  mk (Account.Copy s.(Account)) s.(Code) s.(Suicide) s.(Deleted) s.(DirtyCode) s.(Txn).
End StateObject.

Module Log.
Record t : Type := mk {
  Address : Evmc.Address;
  Topics : list Evmc.Hash;
  Data : list Z
}.
End Log.

Module Output.
Record t : Type := mk {
  Logs : list Log.t;
  Success : bool;
  GasLeft : Z;
  ContractAddress : Evmc.Address;
  ReturnValue : list Z
}.
End Output.

Module Message.
(** [type Message struct]; [GasPrice] and [Value] are non-nil [*big.Int]. *)
Record t : Type := mk {
  Nonce : Z;
  GasPrice : Z;
  Gas : Z;
  To : option Evmc.Address;
  Value : Z;
  Input : list Z;
  From : Evmc.Address
}.

Definition IsContractCreation (m : t) : bool :=
  match m.(To) with None => true | Some _ => false end.

Definition set_Gas (g : Z) (m : t) : t :=
  mk m.(Nonce) m.(GasPrice) g m.(To) m.(Value) m.(Input) m.(From).
End Message.

Module Contract.
(** [type Contract struct]; [Value] may be nil. *)
Record t : Type := mk {
  Type_ : Evmc.CallKind;
  CodeAddress : Evmc.Address;
  Address : Evmc.Address;
  Caller : Evmc.Address;
  Depth : Z;
  Value : option Z;
  Input : list Z;
  Gas : Z;
  Static : bool;
  Salt : Evmc.Hash
}.

Definition NewContract (typ : Evmc.CallKind) (depth : Z) (from to : Evmc.Address)
    (value : option Z) (gas : Z) (input : list Z) : t :=
  mk typ to to from depth value input gas false 0.

Definition NewContractCreation (depth : Z) (from to : Evmc.Address)
    (value : option Z) (gas : Z) (code : list Z) : t :=
  NewContract Evmc.Create depth from to value gas code.

Definition NewContractCall (depth : Z) (from to : Evmc.Address)
    (value : option Z) (gas : Z) (input : list Z) : t :=
  NewContract Evmc.Call depth from to value gas input.

Definition set_addresses (a : Evmc.Address) (c : t) : t :=
  mk c.(Type_) a a c.(Caller) c.(Depth) c.(Value) c.(Input) c.(Gas) c.(Static) c.(Salt).
End Contract.

Module Snapshot.
(** [type Snapshot interface]: the backend under the overlay. [GetAccount]
    answers [None] both for a nil account and for an error, which the only
    caller treats alike. *)
Record t : Type := mk {
  GetStorage : Evmc.Address -> Evmc.Hash -> Evmc.Hash -> Evmc.Hash;
  GetAccount : Evmc.Address -> option Account.t
}.

(** [EmptyState] (state_empty.go). *)
Definition EmptyState : t := mk (fun _ _ _ => 0) (fun _ => None).
End Snapshot.

(** ** The state overlay: [type Txn struct] and its methods (txn.go) *)
Module Txn.
Import GoInt Err.

(** The immutable radix tree under a [Txn]. It maps [addr[:]] (20 bytes) to a
    [*stateObject], [logIndex[:]] (32 bytes) to the log list and
    [refundIndex[:]] (32 bytes) to the refund counter; the three families of
    keys cannot meet, so the tree is written as its three parts. A key that
    is absent from the tree is an absent entry or [None]. *)
Record tree : Type := mkTree {
  objs : gmap Evmc.Address StateObject.t;
  logs : option (list Log.t);
  refund : option Z
}.

(** [iradix.New()] *)
Definition emptyTree : tree := mkTree ∅ None None.

(** [type Txn struct]. [txn] is the live tree, [snapshots] the trees
    recorded by [Snapshot], oldest first. *)
Record t : Type := mk {
  snapshot : Snapshot.t;
  snapshots : list tree;
  txn : tree;
  rev : Evmc.Revision
}.

Definition set_txn (tr : tree) (x : t) : t :=
  mk x.(snapshot) x.(snapshots) tr x.(rev).

(** [txn.txn.Insert(addr[:], object)] *)
Definition insertObject (addr : Evmc.Address) (o : StateObject.t) (x : t) : t :=
  set_txn (mkTree (<[addr := o]> x.(txn).(objs)) x.(txn).(logs) x.(txn).(refund)) x.

(** [txn.txn.Insert(logIndex[:], logs)] and [txn.txn.Delete(logIndex[:])] *)
Definition putLogs (l : option (list Log.t)) (x : t) : t :=
  set_txn (mkTree x.(txn).(objs) l x.(txn).(refund)) x.

(** [txn.txn.Insert(refundIndex[:], refund)] and [txn.txn.Delete(refundIndex[:])] *)
Definition putRefund (r : option Z) (x : t) : t :=
  set_txn (mkTree x.(txn).(objs) x.(txn).(logs) r) x.

Definition newTxn (snapshot : Snapshot.t) : t := mk snapshot [] emptyTree 0.

Definition NewTxn (snapshot : Snapshot.t) : t := newTxn snapshot.

(** [Snapshot] (lines 43-50) *)
Definition Snapshot (x : t) : Z * t :=
  let tr := x.(txn) in
  let id := len x.(snapshots) in
  (id, mk x.(snapshot) (x.(snapshots) ++ [tr]) x.(txn) x.(rev)).

(** [RevertToSnapshot] (lines 53-60); an index outside the slice panics. *)
Definition RevertToSnapshot (id : Z) (x : t) : option t :=
  if id >? len x.(snapshots) then None
  else if id <? 0 then None
  else match x.(snapshots) !! Z.to_nat id with
       | None => None
       | Some tr => Some (set_txn tr x)
       end.

Definition EmptyRootHash : Evmc.Hash :=
  0x56e81f171bcc55a6ff8345e692c0f86e5b48e01b996cadc001622fb5e363b421.

Definition zeroHash : Evmc.Hash := 0.

Definition isRevision (r : Evmc.Revision) (x : t) : bool := r <=? x.(rev).

(** *** Definitions used by the statements about [SetStorage] *)

(** [legacyGasMetering] as [SetStorage] computes it. *)
Definition legacyGasMetering (x : t) : bool :=
  negb (isRevision Evmc.Istanbul x)
  && (isRevision Evmc.Petersburg x || negb (isRevision Evmc.Constantinople x)).

(** The refund counter after a repeated write, in the words of the
    specification: subtract 15000 if [original <> 0] and [current = 0], add
    15000 if [original <> 0] and [new = 0], and when [original = new] add
    19200 or 4200 (Istanbul), 19800 or 4800 (before Istanbul), the first when
    [original = 0]. *)
Definition repeatedWriteRefund (isIstanbul : bool) (original current new refund : Z)
  : Z :=
  let r := if negb (original =? 0) && (current =? 0)
           then sub64 refund 15000 else refund in
  let r := if negb (original =? 0) && (new =? 0) then add64 r 15000 else r in
  if original =? new
  then add64 r (if original =? 0
                then (if isIstanbul then 19200 else 19800)
                else (if isIstanbul then 4200 else 4800))
  else r.

Section WithExternals.
Context `{X : Precompiled.Externals}.

Definition EmptyCodeHash : Evmc.Hash :=
  Bytes.bytesToHash (Precompiled.Keccak256 []).

(** [stateObject.Empty] *)
Definition Empty (s : StateObject.t) : bool :=
  (s.(StateObject.Account).(Account.Nonce) =? 0)
  && (Z.sgn s.(StateObject.Account).(Account.Balance) =? 0)
  && bool_decide (s.(StateObject.Account).(Account.CodeHash) = Bytes.hashBytes EmptyCodeHash).

(** The object [upsertAccount], [CreateAccount] and [newStateObject] build. *)
Definition newStateObject : StateObject.t :=
  StateObject.mk (Account.mk 0 0 EmptyRootHash (Bytes.hashBytes EmptyCodeHash) [])
    [] false false false None.

(** [getStateObject] (lines 71-94) *)
Definition getStateObject (x : t) (addr : Evmc.Address) : option StateObject.t :=
  match x.(txn).(objs) !! addr with
  | Some obj => if obj.(StateObject.Deleted) then None else Some (StateObject.Copy obj)
  | None =>
    match x.(snapshot).(Snapshot.GetAccount) addr with
    | None => None
    | Some account =>
      Some (StateObject.mk (Account.Copy account) account.(Account.Code)
              false false false None)
    end
  end.

(** [GetAccount] (lines 63-69) *)
Definition GetAccount (x : t) (addr : Evmc.Address) : option Account.t :=
  option_map StateObject.Account (getStateObject x addr).

(** [upsertAccount] (lines 96-114). The callback [f] changes the object in
    place; with no object and [create = false] it is called on nil, which
    only [Suicide] does, and nothing is inserted. *)
Definition upsertAccount (addr : Evmc.Address) (create : bool)
    (f : StateObject.t -> StateObject.t) (x : t) : t :=
  match getStateObject x addr with
  | Some object => insertObject addr (f object) x
  | None => if create then insertObject addr (f newStateObject) x else x
  end.

Definition AddSealingReward (addr : Evmc.Address) (balance : Z) (x : t) : t :=
  upsertAccount addr true
    (fun object =>
       if object.(StateObject.Suicide)
       then StateObject.set_Balance (Z.abs balance) newStateObject
       else StateObject.set_Balance
              (object.(StateObject.Account).(Account.Balance) + balance) object) x.

Definition AddBalance (addr : Evmc.Address) (balance : Z) (x : t) : t :=
  upsertAccount addr true
    (fun object =>
       StateObject.set_Balance
         (object.(StateObject.Account).(Account.Balance) + balance) object) x.

Definition GetBalance (x : t) (addr : Evmc.Address) : Z :=
  match getStateObject x addr with
  | None => 0
  | Some object => object.(StateObject.Account).(Account.Balance)
  end.

(** [SubBalance] (lines 137-153) *)
Definition SubBalance (addr : Evmc.Address) (amount : Z) (x : t) : option error * t :=
  if Z.sgn amount =? 0 then (None, x)
  else if GetBalance x addr <? amount then (Some errNotEnoughFunds, x)
  else (None,
        upsertAccount addr true
          (fun object =>
             StateObject.set_Balance
               (object.(StateObject.Account).(Account.Balance) - amount) object) x).

Definition SetBalance (addr : Evmc.Address) (balance : Z) (x : t) : t :=
  upsertAccount addr true (StateObject.set_Balance (Z.abs balance)) x.

(** [EmitLog] (lines 172-189). Go's [append] may reuse the array of the
    list a snapshot holds, but it writes past the length of the list it
    extends: the list held by the snapshot of a frame that still runs, the
    only kind the driver reverts to, is never changed, and the lists are
    modelled as values. *)
Definition EmitLog (addr : Evmc.Address) (topics : list Evmc.Hash) (data : list Z)
    (x : t) : t :=
  let log := Log.mk addr topics data in
  let logs := match x.(txn).(logs) with
              | None => []
              | Some val => val
              end in
  putLogs (Some (logs ++ [log])) x.

(** [GetRefund], [AddRefund], [SubRefund] (lines 383-408) *)
Definition GetRefund (x : t) : Z :=
  match x.(txn).(refund) with
  | None => 0
  | Some data => data
  end.

Definition AddRefund (gas : Z) (x : t) : t :=
  putRefund (Some (add64 (GetRefund x) gas)) x.

Definition SubRefund (gas : Z) (x : t) : t :=
  putRefund (Some (sub64 (GetRefund x) gas)) x.

(** [Logs] (lines 393-400) *)
Definition Logs (x : t) : list Log.t * t :=
  match x.(txn).(logs) with
  | None => ([], x)
  | Some data => (data, putLogs None x)
  end.

(** [SetState] (lines 261-273) *)
Definition SetState (addr : Evmc.Address) (key value : Evmc.Hash) (x : t) : t :=
  upsertAccount addr true
    (fun object =>
       let tr := match object.(StateObject.Txn) with
                 | None => ∅
                 | Some tr => tr
                 end in
       let tr := if bool_decide (value = zeroHash)
                 then <[key := None]> tr
                 else <[key := Some value]> tr in
       StateObject.mk object.(StateObject.Account) object.(StateObject.Code)
         object.(StateObject.Suicide) object.(StateObject.Deleted)
         object.(StateObject.DirtyCode) (Some tr)) x.

(** [GetState] (lines 276-294) *)
Definition GetState (x : t) (addr : Evmc.Address) (key : Evmc.Hash) : Evmc.Hash :=
  match getStateObject x addr with
  | None => 0
  | Some object =>
    match
      match object.(StateObject.Txn) with
      | None => None
      | Some tr => tr !! key
      end
    with
    | Some None => 0
    | Some (Some val) => val
    | None =>
      x.(snapshot).(Snapshot.GetStorage) addr
        object.(StateObject.Account).(Account.Root) key
    end
  end.

(** [GetCommittedState] (lines 411-417) *)
Definition GetCommittedState (x : t) (addr : Evmc.Address) (key : Evmc.Hash)
  : Evmc.Hash :=
  match getStateObject x addr with
  | None => 0
  | Some obj =>
    x.(snapshot).(Snapshot.GetStorage) addr obj.(StateObject.Account).(Account.Root) key
  end.

(** [SetStorage] (lines 199-258) *)
Definition SetStorage (addr : Evmc.Address) (key value : Evmc.Hash) (x : t)
  : Evmc.StorageStatus * t :=
  let oldValue := GetState x addr key in
  if bool_decide (oldValue = value) then (Evmc.StorageUnchanged, x) else
  let current := oldValue in
  let original := GetCommittedState x addr key in
  let x := SetState addr key value x in
  let isIstanbul := isRevision Evmc.Istanbul x in
  let legacyGasMetering :=
    negb isIstanbul
    && (isRevision Evmc.Petersburg x || negb (isRevision Evmc.Constantinople x)) in
  if legacyGasMetering then
    if bool_decide (oldValue = zeroHash) then (Evmc.StorageAdded, x)
    else if bool_decide (value = zeroHash)
         then (Evmc.StorageDeleted, AddRefund 15000 x)
         else (Evmc.StorageModified, x)
  else
  if bool_decide (original = current) then
    if bool_decide (original = zeroHash) then (Evmc.StorageAdded, x)
    else if bool_decide (value = zeroHash)
         then (Evmc.StorageDeleted, AddRefund 15000 x)
         else (Evmc.StorageModified, x)
  else
  let x :=
    if negb (bool_decide (original = zeroHash)) then
      if bool_decide (current = zeroHash) then SubRefund 15000 x
      else if bool_decide (value = zeroHash) then AddRefund 15000 x
      else x
    else x in
  let x :=
    if bool_decide (original = value) then
      if bool_decide (original = zeroHash) then
        if isIstanbul then AddRefund 19200 x else AddRefund 19800 x
      else
        if isIstanbul then AddRefund 4200 x else AddRefund 4800 x
    else x in
  (Evmc.StorageModifiedAgain, x).

(** [IncrNonce], [SetNonce], [GetNonce] (lines 299-319) *)
Definition IncrNonce (addr : Evmc.Address) (x : t) : t :=
  upsertAccount addr true
    (fun object =>
       StateObject.set_Nonce (add64 object.(StateObject.Account).(Account.Nonce) 1)
         object) x.

Definition SetNonce (addr : Evmc.Address) (nonce : Z) (x : t) : t :=
  upsertAccount addr true (StateObject.set_Nonce nonce) x.

Definition GetNonce (x : t) (addr : Evmc.Address) : Z :=
  match getStateObject x addr with
  | None => 0
  | Some object => object.(StateObject.Account).(Account.Nonce)
  end.

(** [SetCode], [GetCode], [GetCodeSize] (lines 324-345) *)
Definition SetCode (addr : Evmc.Address) (code : list Z) (x : t) : t :=
  upsertAccount addr true
    (fun object =>
       StateObject.mk
         (Account.mk object.(StateObject.Account).(Account.Nonce)
            object.(StateObject.Account).(Account.Balance)
            object.(StateObject.Account).(Account.Root)
            (Precompiled.Keccak256 code)
            object.(StateObject.Account).(Account.Code))
         code object.(StateObject.Suicide) object.(StateObject.Deleted) true
         object.(StateObject.Txn)) x.

Definition GetCode (x : t) (addr : Evmc.Address) : list Z :=
  match getStateObject x addr with
  | None => []
  | Some object => object.(StateObject.Code)
  end.

Definition GetCodeSize (x : t) (addr : Evmc.Address) : Z := len (GetCode x addr).

(** [empty] (lines 433-439) *)
Definition empty (x : t) (addr : Evmc.Address) : bool :=
  match getStateObject x addr with
  | None => true
  | Some obj => Empty obj
  end.

(** [GetCodeHash] (lines 347-357) *)
Definition GetCodeHash (x : t) (addr : Evmc.Address) : Evmc.Hash :=
  if empty x addr then 0
  else match getStateObject x addr with
       | None => 0
       | Some object =>
         Bytes.copyToHash object.(StateObject.Account).(Account.CodeHash)
       end.

(** [Suicide] (lines 360-374) *)
Definition Suicide (addr : Evmc.Address) (x : t) : bool * t :=
  match getStateObject x addr with
  | None => (false, x)
  | Some object =>
    let suicided := negb object.(StateObject.Suicide) in
    let object :=
      StateObject.mk object.(StateObject.Account) object.(StateObject.Code)
        true object.(StateObject.Deleted) object.(StateObject.DirtyCode)
        object.(StateObject.Txn) in
    (suicided, insertObject addr (StateObject.set_Balance 0 object) x)
  end.

Definition HasSuicided (x : t) (addr : Evmc.Address) : bool :=
  match getStateObject x addr with
  | None => false
  | Some object => object.(StateObject.Suicide)
  end.

Definition TouchAccount (addr : Evmc.Address) (x : t) : t :=
  upsertAccount addr true (fun obj => obj) x.

Definition AccountExists (x : t) (addr : Evmc.Address) : bool :=
  if x.(rev) >=? Evmc.SpuriousDragon then negb (empty x addr)
  else match getStateObject x addr with
       | None => false
       | Some _ => true
       end.

(** [CreateAccount] (lines 451-466) *)
Definition CreateAccount (addr : Evmc.Address) (x : t) : t :=
  let obj :=
    match getStateObject x addr with
    | Some prev =>
      StateObject.set_Balance (Z.abs prev.(StateObject.Account).(Account.Balance))
        newStateObject
    | None => newStateObject
    end in
  insertObject addr obj x.

(** [CleanDeleteObjects] (lines 468-498) *)
Definition CleanDeleteObjects (deleteEmptyObjects : bool) (x : t) : t :=
  let sweep (a : StateObject.t) : StateObject.t :=
    if a.(StateObject.Suicide) || (Empty a && deleteEmptyObjects) then
      let obj2 := StateObject.Copy a in
      StateObject.mk obj2.(StateObject.Account) obj2.(StateObject.Code)
        obj2.(StateObject.Suicide) true obj2.(StateObject.DirtyCode)
        obj2.(StateObject.Txn)
    else a in
  set_txn (mkTree (sweep <$> x.(txn).(objs)) x.(txn).(logs) None) x.

End WithExternals.

End Txn.

(** ** The transition driver: [type Transition struct] and its methods *)
Module Transition.
Import GoInt Err.

Definition spuriousDragonMaxCodeSize : Z := 24576.
Definition TxGas : Z := 21000.
Definition TxGasContractCreation : Z := 53000.

(** [type TxContext struct] *)
Record TxContext : Type := mkTxContext {
  Hash : Evmc.Hash;
  GasPrice : Evmc.Hash;
  Origin : Evmc.Address;
  Coinbase : Evmc.Address;
  Number : Z;
  Timestamp : Z;
  GasLimit : Z;
  ChainID : Z;
  Difficulty : Evmc.Hash
}.

(** [type Cheatcode interface]; [Run] returns nothing and is handed no part
    of the transition. *)
Record Cheatcode : Type := mkCheatcode {
  CanRun : Evmc.Address -> bool
}.

(** [type Config struct] *)
Record Config : Type := mkConfig {
  GetHash : Z -> Evmc.Hash;
  Ctx : TxContext;
  Rev : Evmc.Revision;
  State : Snapshot.t;
  Cheatcodes : list Cheatcode
}.

Definition DefaultConfig : Config :=
  mkConfig (fun _ => 0) (mkTxContext 0 0 0 0 0 0 0 0 0) Evmc.Istanbul
    Snapshot.EmptyState [].

(** [type Transition struct] *)
Record t : Type := mk {
  txn : Txn.t;
  config : Config
}.

Definition set_txn (x : Txn.t) (tr : t) : t := mk x tr.(config).

(** [NewTransition], once the options have been applied to the config. *)
Definition NewTransition (cfg : Config) : t :=
  mk (Txn.mk cfg.(State) [] Txn.emptyTree cfg.(Rev)) cfg.

Definition isRevision (r : Evmc.Revision) (tr : t) : bool := r <=? tr.(config).(Rev).

(** What a call frame returns to the driver: the returned bytes, the gas
    left (an [int64]), an address and the error. *)
Definition callResult : Type := (list Z * Z * Evmc.Address * option error)%type.

(** [state.Run()] of one frame as the driver sees it: the bytes and the
    error it returns, the gas the frame holds at the end, and the transition
    after the host calls the frame made; [None] is a panic. *)
Definition frame : Type := t -> option (list Z * Z * option evm_error * t).

(** [TransactionGasCost] (lines 486-525) *)
Definition TransactionGasCost (msg : Message.t) (isHomestead isIstanbul : bool)
  : Z * option error :=
  let cost := if Message.IsContractCreation msg && isHomestead
              then TxGasContractCreation else TxGas in
  let payload := msg.(Message.Input) in
  if len payload >? 0 then
    let zeros := Z.of_nat (count_occ Z.eq_dec payload 0) in
    let nonZeros := sub64 (len payload) zeros in
    let nonZeroCost := if isIstanbul then 16 else 68 in
    if (MaxUint64 - cost) / nonZeroCost <? nonZeros
    then (0, Some (errorString "overflow in non-zeros intrinsic gas calculation"))
    else
      let cost := add64 cost (mul64 nonZeros nonZeroCost) in
      if (MaxUint64 - cost) / 4 <? zeros
      then (0, Some (errorString "overflow in zeros intrinsic gas calculation"))
      else (add64 cost (mul64 zeros 4), None)
  else (cost, None).

Section WithExternals.
Context `{X : Precompiled.Externals}.

(** [preCheck] (lines 104-143); the message comes back with [Gas] reduced
    by the intrinsic cost when the check passes. *)
Definition preCheck (msg : Message.t) (tr : t) : option error * Message.t * t :=
  let nonce := Txn.GetNonce tr.(txn) msg.(Message.From) in
  if negb (nonce =? msg.(Message.Nonce))
  then (Some (errorString "incorrect nonce"), msg, tr) else
  let upfrontGasCost := msg.(Message.GasPrice) * msg.(Message.Gas) in
  match Txn.SubBalance msg.(Message.From) upfrontGasCost tr.(txn) with
  | (Some err, x) =>
    (Some (if bool_decide (err = errNotEnoughFunds)
           then errorString "not enough funds to cover gas costs" else err),
     msg, set_txn x tr)
  | (None, x) =>
    let tr := set_txn x tr in
    match TransactionGasCost msg (isRevision Evmc.Homestead tr)
            (isRevision Evmc.Istanbul tr) with
    | (_, Some err) => (Some err, msg, tr)
    | (intrinsicGasCost, None) =>
      let gasLeft := sub64 msg.(Message.Gas) intrinsicGasCost in
      if gasLeft >? msg.(Message.Gas)
      then (Some (errorString "not enough gas supplied for intrinsic gas costs"),
            msg, tr)
      else if Txn.GetBalance tr.(txn) msg.(Message.From) <? msg.(Message.Value)
      then (Some errNotEnoughFunds, msg, tr)
      else (None, Message.set_Gas gasLeft msg, tr)
    end
  end.

(** [postCheck] (lines 145-174) *)
Definition postCheck (msg : Message.t) (output : Output.t) (tr : t)
  : Message.t * Output.t * t :=
  let intrinsicGasCost :=
    fst (TransactionGasCost msg (isRevision Evmc.Homestead tr)
           (isRevision Evmc.Istanbul tr)) in
  let msg := Message.set_Gas (add64 msg.(Message.Gas) intrinsicGasCost) msg in
  let refund := Txn.GetRefund tr.(txn) in
  let gasUsed := sub64 msg.(Message.Gas) output.(Output.GasLeft) in
  let maxRefund := gasUsed / 2 in
  let refund := if refund >? maxRefund then maxRefund else refund in
  let gasLeft := add64 output.(Output.GasLeft) refund in
  let output := Output.mk output.(Output.Logs) output.(Output.Success) gasLeft
                  output.(Output.ContractAddress) output.(Output.ReturnValue) in
  let gasUsed := sub64 gasUsed refund in
  let gasPrice := msg.(Message.GasPrice) in
  let remaining := gasLeft * gasPrice in
  let x := Txn.AddBalance msg.(Message.From) remaining tr.(txn) in
  let coinbaseFee := gasUsed * gasPrice in
  let x := Txn.AddBalance tr.(config).(Ctx).(Coinbase) coinbaseFee x in
  (msg, output, set_txn x tr).

(** [createAddress] and [createAddress2] (address.go) *)
Definition createAddress (addr : Evmc.Address) (nonce : Z) : Evmc.Address :=
  Bytes.copyToAddress
    (drop 12%nat (Precompiled.Keccak256 (Precompiled.rlpAddressNonce addr nonce))).

Definition createAddress2 (addr : Evmc.Address) (salt : Evmc.Hash) (inithash : list Z)
  : Evmc.Address :=
  Bytes.copyToAddress
    (drop 12%nat
       (Precompiled.Keccak256
          ([0xff] ++ Bytes.addressBytes addr ++ Bytes.hashBytes salt
           ++ Precompiled.Keccak256 inithash))).

(** [isPrecompiled] (lines 218-242) *)
Definition isPrecompiled (codeAddr : Evmc.Address) (tr : t) : bool :=
  match Precompiled.precompiledContracts codeAddr with
  | None => false
  | Some _ =>
    if (codeAddr =? Precompiled.addr5) || (codeAddr =? Precompiled.addr6)
       || (codeAddr =? Precompiled.addr7) || (codeAddr =? Precompiled.addr8)
    then isRevision Evmc.Byzantium tr
    else if codeAddr =? Precompiled.addr9 then isRevision Evmc.Istanbul tr
    else true
  end.

(** [EVM.Run] (package evm, lines 143-189): the frame is set up, [body] is
    its [s.Run()], and the gas left is dropped for every error but a
    revert. *)
Definition EVM_Run (body : frame) (tr : t) : option (list Z * Z * option error * t) :=
  match body tr with
  | None => None
  | Some (ret, gasLeft, err, tr') =>
    let returnValue := ret in
    let gasLeft :=
      match err with
      | Some e => if isReverted (evmError e) then gasLeft else 0
      | None => gasLeft
      end in
    Some (returnValue, int64 gasLeft, option_map evmError err, tr')
  end.

(** [run] (lines 244-262) *)
Definition run (c : Contract.t) (body : frame) (tr : t)
  : option (list Z * Z * option error * t) :=
  if existsb (fun cheat => cheat.(CanRun) c.(Contract.CodeAddress))
       tr.(config).(Cheatcodes)
  then Some ([], int64 c.(Contract.Gas), None, tr)
  else if isPrecompiled c.(Contract.CodeAddress) tr then
    match Precompiled.runPrecompiled c.(Contract.CodeAddress) c.(Contract.Input)
            c.(Contract.Gas) tr.(config).(Rev) with
    | None => None
    | Some (ret, gas, err) => Some (ret, gas, err, tr)
    end
  else EVM_Run body tr.

(** [transfer] (lines 264-274) *)
Definition transfer (from to : Evmc.Address) (amount : option Z) (tr : t)
  : option error * t :=
  match amount with
  | None => (None, tr)
  | Some amount =>
    match Txn.SubBalance from amount tr.(txn) with
    | (Some err, x) => (Some err, set_txn x tr)
    | (None, x) => (None, set_txn (Txn.AddBalance to amount x) tr)
    end
  end.

(** [t.txn.RevertToSnapshot(snapshot)] *)
Definition revert (snapshot : Z) (tr : t) : option t :=
  option_map (fun x => set_txn x tr) (Txn.RevertToSnapshot snapshot tr.(txn)).

(** [applyCall] (lines 276-296) *)
Definition applyCall (c : Contract.t) (callType : Evmc.CallKind) (body : frame)
    (tr : t) : option (callResult * t) :=
  let '(snapshot, x) := Txn.Snapshot tr.(txn) in
  let tr := set_txn (Txn.TouchAccount c.(Contract.Address) x) tr in
  match
    match callType with
    | Evmc.Call =>
      transfer c.(Contract.Caller) c.(Contract.Address) c.(Contract.Value) tr
    | _ => (None, tr)
    end
  with
  | (Some err, tr) => Some (([], int64 c.(Contract.Gas), 0, Some err), tr)
  | (None, tr) =>
    match run c body tr with
    | None => None
    | Some (retValue, gasLeft, None, tr) => Some ((retValue, gasLeft, 0, None), tr)
    | Some (retValue, gasLeft, Some err, tr) =>
      match revert snapshot tr with
      | None => None
      | Some tr =>
        let retValue := if isReverted err then retValue else [] in
        Some ((retValue, gasLeft, 0, Some err), tr)
      end
    end
  end.

(** [hasCodeOrNonce] (lines 300-310) *)
Definition hasCodeOrNonce (addr : Evmc.Address) (tr : t) : bool :=
  if negb (Txn.GetNonce tr.(txn) addr =? 0) then true
  else
    let codeHash := Txn.GetCodeHash tr.(txn) addr in
    negb (codeHash =? Txn.EmptyCodeHash) && negb (codeHash =? 0).

(** [applyCreate] (lines 312-384) *)
Definition applyCreate (c : Contract.t) (body : frame) (tr : t)
  : option (callResult * t) :=
  let gasLimit := c.(Contract.Gas) in
  match
    match c.(Contract.Type_) with
    | Evmc.Create =>
      Some (createAddress c.(Contract.Caller) (Txn.GetNonce tr.(txn) c.(Contract.Caller)))
    | Evmc.Create2 =>
      Some (createAddress2 c.(Contract.Caller) c.(Contract.Salt) c.(Contract.Input))
    | _ => None
    end
  with
  | None => None
  | Some address =>
    let c := Contract.set_addresses address c in
    let tr := set_txn (Txn.IncrNonce c.(Contract.Caller) tr.(txn)) tr in
    if hasCodeOrNonce c.(Contract.Address) tr
    then Some (([], 0, address, Some (errorString "contract address collision")), tr)
    else
      let '(snapshot, x) := Txn.Snapshot tr.(txn) in
      let tr := set_txn x tr in
      let tr :=
        if isRevision Evmc.SpuriousDragon tr
        then set_txn (Txn.IncrNonce c.(Contract.Address)
                        (Txn.CreateAccount c.(Contract.Address) tr.(txn))) tr
        else tr in
      match transfer c.(Contract.Caller) c.(Contract.Address) c.(Contract.Value) tr with
      | (Some err, tr) => Some (([], int64 gasLimit, address, Some err), tr)
      | (None, tr) =>
        match run c body tr with
        | None => None
        | Some (retValue, gasLeft, Some err, tr) =>
          match revert snapshot tr with
          | None => None
          | Some tr =>
            let retValue := if isReverted err then retValue else [] in
            Some ((retValue, gasLeft, address, Some err), tr)
          end
        | Some (retValue, gasLeft, None, tr) =>
          if isRevision Evmc.SpuriousDragon tr
             && (len retValue >? spuriousDragonMaxCodeSize)
          then
            match revert snapshot tr with
            | None => None
            | Some tr =>
              Some (([], 0, address, Some (errorString "evm: max code size exceeded")), tr)
            end
          else
            let gasCost := int64 (len retValue * 200) in
            if gasLeft <? gasCost then
              let err := errorString "contract creation code storage out of gas" in
              if isRevision Evmc.Homestead tr then
                match revert snapshot tr with
                | None => None
                | Some tr => Some (([], 0, address, Some err), tr)
                end
              else Some (([], gasLeft, address, Some err), tr)
            else
              let gasLeft := int64 (gasLeft - gasCost) in
              let tr := set_txn (Txn.SetCode c.(Contract.Address) retValue tr.(txn)) tr in
              Some (([], gasLeft, address, None), tr)
        end
      end
  end.

(** [Callx] (lines 479-484) *)
Definition Callx (c : Contract.t) (body : frame) (tr : t) : option (callResult * t) :=
  match c.(Contract.Type_) with
  | Evmc.Create | Evmc.Create2 => applyCreate c body tr
  | _ => applyCall c c.(Contract.Type_) body tr
  end.

(** [Call] (lines 459-477), the [Host.Call] of the interpreter *)
Definition Call (req : Evm.CallRequest) (body : frame) (tr : t)
  : option (callResult * t) :=
  let cc :=
    Contract.mk req.(Evm.req_kind) req.(Evm.req_codeAddress) req.(Evm.req_recipient)
      req.(Evm.req_sender) req.(Evm.req_depth) (Some req.(Evm.req_value))
      req.(Evm.req_input) (uint64 req.(Evm.req_gas)) req.(Evm.req_static)
      req.(Evm.req_salt) in
  Callx cc body tr.

(** The host methods that write the overlay (lines 386-457) *)
Definition SetStorage (addr : Evmc.Address) (key value : Evmc.Hash) (tr : t)
  : Evmc.StorageStatus * t :=
  let '(status, x) := Txn.SetStorage addr key value tr.(txn) in (status, set_txn x tr).

Definition EmitLog (addr : Evmc.Address) (topics : list Evmc.Hash) (data : list Z)
    (tr : t) : t :=
  set_txn (Txn.EmitLog addr topics data tr.(txn)) tr.

Definition Selfdestruct (addr beneficiary : Evmc.Address) (tr : t) : t :=
  let x := tr.(txn) in
  let x := if negb (Txn.HasSuicided x addr) then Txn.AddRefund 24000 x else x in
  let x := Txn.AddBalance beneficiary (Txn.GetBalance x addr) x in
  set_txn (snd (Txn.Suicide addr x)) tr.

Definition GetNonce (tr : t) (addr : Evmc.Address) : Z := Txn.GetNonce tr.(txn) addr.

(** What the interpreter does with one frame, as a tree of its calls into
    the host: it returns ([Ret], with the bytes, the gas it still holds and
    its error), or it calls a host method and goes on with the answer.
    [HostRead] stands for the methods that only read ([GetStorage],
    [GetBalance], [GetCode], [GetCodeSize], [GetCodeHash], [AccountExists],
    [GetTxContext], [GetBlockHash]). In [HostCall], [callee] is what the
    interpreter does with the frame the call starts, should the driver run
    one. *)
Inductive prog : Type :=
| Ret (ret : list Z) (gas : Z) (err : option evm_error)
| HostRead (k : t -> prog)
| HostSetStorage (addr : Evmc.Address) (key value : Evmc.Hash)
    (k : Evmc.StorageStatus -> prog)
| HostEmitLog (addr : Evmc.Address) (topics : list Evmc.Hash) (data : list Z)
    (k : prog)
| HostSelfdestruct (addr beneficiary : Evmc.Address) (k : prog)
| HostCall (req : Evm.CallRequest) (callee : prog) (k : callResult -> prog).

(** Running a frame against the transition. *)
Fixpoint exec (p : prog) : frame :=
  fun tr =>
    match p with
    | Ret ret gas err => Some (ret, gas, err, tr)
    | HostRead k => exec (k tr) tr
    | HostSetStorage addr key value k =>
      let '(status, tr') := SetStorage addr key value tr in exec (k status) tr'
    | HostEmitLog addr topics data k => exec k (EmitLog addr topics data tr)
    | HostSelfdestruct addr beneficiary k => exec k (Selfdestruct addr beneficiary tr)
    | HostCall req callee k =>
      match Call req (exec callee) tr with
      | None => None
      | Some (res, tr') => exec (k res) tr'
      end
    end.

(** [Apply] (lines 176-216); [body] is the root frame. *)
Definition Apply (msg : Message.t) (body : frame) (tr : t) : option (Output.t * t) :=
  let gasPrice := msg.(Message.GasPrice) in
  let value := msg.(Message.Value) in
  let ctx := tr.(config).(Ctx) in
  let ctx := mkTxContext ctx.(Hash) (Z.abs gasPrice mod 2 ^ 256) msg.(Message.From)
               ctx.(Coinbase) ctx.(Number) ctx.(Timestamp) ctx.(GasLimit)
               ctx.(ChainID) ctx.(Difficulty) in
  let tr := mk tr.(txn)
              (mkConfig tr.(config).(GetHash) ctx tr.(config).(Rev)
                 tr.(config).(State) tr.(config).(Cheatcodes)) in
  match
    match msg.(Message.To) with
    | None =>
      let address := createAddress msg.(Message.From)
                       (Txn.GetNonce tr.(txn) msg.(Message.From)) in
      let contract := Contract.NewContractCreation 0 msg.(Message.From) address
                        (Some value) msg.(Message.Gas) msg.(Message.Input) in
      applyCreate contract body tr
    | Some to =>
      let tr := set_txn (Txn.IncrNonce msg.(Message.From) tr.(txn)) tr in
      let c := Contract.NewContractCall 0 msg.(Message.From) to (Some value)
                 msg.(Message.Gas) msg.(Message.Input) in
      applyCall c Evmc.Call body tr
    end
  with
  | None => None
  | Some ((retValue, gasLeft, _, err), tr) =>
    let '(logs, x) := Txn.Logs tr.(txn) in
    let tr := set_txn x tr in
    let success := match err with Some _ => false | None => true end in
    let contractAddress :=
      match msg.(Message.To) with
      | None => createAddress msg.(Message.From) msg.(Message.Nonce)
      | Some _ => 0
      end in
    Some (Output.mk logs success (uint64 gasLeft) contractAddress retValue, tr)
  end.

(** [applyImpl] (lines 91-98) *)
Definition applyImpl (msg : Message.t) (body : frame) (tr : t)
  : option ((Output.t + error) * t) :=
  match preCheck msg tr with
  | (Some err, _, tr) => Some (inr err, tr)
  | (None, msg, tr) =>
    match Apply msg body tr with
    | None => None
    | Some (output, tr) =>
      let '(_, output, tr) := postCheck msg output tr in
      Some (inl output, tr)
    end
  end.

(** [Write] (lines 73-88) *)
Definition Write (msg : Message.t) (body : frame) (tr : t)
  : option ((Output.t + error) * t) :=
  match applyImpl msg body tr with
  | None => None
  | Some (inr err, tr) => Some (inr err, tr)
  | Some (inl output, tr) =>
    let x :=
      if isRevision Evmc.Byzantium tr
      then Txn.CleanDeleteObjects true tr.(txn)
      else Txn.CleanDeleteObjects (isRevision Evmc.SpuriousDragon tr) tr.(txn) in
    Some (inl output, set_txn x tr)
  end.

End WithExternals.

(** *** Definitions used by the statements about the driver *)

(** Every log the frame can emit, whatever the host answers, satisfies [P]. *)
Inductive emits (P : Log.t -> Prop) : prog -> Prop :=
| emits_Ret ret gas err : emits P (Ret ret gas err)
| emits_Read k : (forall tr, emits P (k tr)) -> emits P (HostRead k)
| emits_SetStorage addr key value k :
    (forall st, emits P (k st)) -> emits P (HostSetStorage addr key value k)
| emits_EmitLog addr topics data k :
    P (Log.mk addr topics data) -> emits P k -> emits P (HostEmitLog addr topics data k)
| emits_Selfdestruct addr beneficiary k :
    emits P k -> emits P (HostSelfdestruct addr beneficiary k)
| emits_Call req callee k :
    emits P callee -> (forall res, emits P (k res)) -> emits P (HostCall req callee k).

(** The logs held by a tree satisfy [P]. *)
Definition logsOK (P : Log.t -> Prop) (tr : Txn.tree) : Prop :=
  match Txn.logs tr with Some l => Forall P l | None => True end.

(** The live tree, and every snapshot from index [n] on, hold only logs that satisfy [P]. *)
Definition inv (P : Log.t -> Prop) (n : nat) (x : Txn.t) : Prop :=
  (n <= length (Txn.snapshots x))%nat /\ logsOK P (Txn.txn x) /\
  forall i tr, (n <= i)%nat -> Txn.snapshots x !! i = Some tr -> logsOK P tr.

(** [x'] comes after [x]: the snapshot list only grew, backend and revision stand. *)
Definition ext (x x' : Txn.t) : Prop :=
  Txn.snapshots x `prefix_of` Txn.snapshots x' /\
  Txn.snapshot x' = Txn.snapshot x /\ Txn.rev x' = Txn.rev x.

(** An operation that touches neither the snapshots nor the logs. *)
Definition quiet (x x' : Txn.t) : Prop :=
  Txn.snapshots x' = Txn.snapshots x /\ Txn.snapshot x' = Txn.snapshot x /\
  Txn.rev x' = Txn.rev x /\ Txn.logs (Txn.txn x') = Txn.logs (Txn.txn x).

(** The same two for a transition, whose configuration stands as well. *)
Definition tinv (P : Log.t -> Prop) (n : nat) (tr : t) : Prop := inv P n tr.(txn).
Definition text (tr tr' : t) : Prop := ext tr.(txn) tr'.(txn) /\ tr'.(config) = tr.(config).

Section Entry.
Context `{X : Precompiled.Externals}.
Import Err.

(** [applyCall] up to its call of [run] (lines 277-285): the snapshot it
    took and the transition on which the frame runs; [None] when the transfer
    is refused and no frame runs. *)
Definition callEntry (c : Contract.t) (callType : Evmc.CallKind) (tr : t)
  : option (Z * t) :=
  let '(snapshot, x) := Txn.Snapshot tr.(txn) in
  let tr := set_txn (Txn.TouchAccount c.(Contract.Address) x) tr in
  match
    match callType with
    | Evmc.Call =>
      transfer c.(Contract.Caller) c.(Contract.Address) c.(Contract.Value) tr
    | _ => (None, tr)
    end
  with
  | (Some _, _) => None
  | (None, tr) => Some (snapshot, tr)
  end.

(** [applyCreate] up to its call of [run] (lines 313-343): the contract with
    its address set, the snapshot and the transition on which the init code
    runs; [None] when no frame runs (address collision, refused transfer, or
    a call kind that is no creation). *)
Definition createEntry (c : Contract.t) (tr : t) : option (Contract.t * Z * t) :=
  match
    match c.(Contract.Type_) with
    | Evmc.Create =>
      Some (createAddress c.(Contract.Caller) (Txn.GetNonce tr.(txn) c.(Contract.Caller)))
    | Evmc.Create2 =>
      Some (createAddress2 c.(Contract.Caller) c.(Contract.Salt) c.(Contract.Input))
    | _ => None
    end
  with
  | None => None
  | Some address =>
    let c := Contract.set_addresses address c in
    let tr := set_txn (Txn.IncrNonce c.(Contract.Caller) tr.(txn)) tr in
    if hasCodeOrNonce c.(Contract.Address) tr then None
    else
      let '(snapshot, x) := Txn.Snapshot tr.(txn) in
      let tr := set_txn x tr in
      let tr :=
        if isRevision Evmc.SpuriousDragon tr
        then set_txn (Txn.IncrNonce c.(Contract.Address)
                        (Txn.CreateAccount c.(Contract.Address) tr.(txn))) tr
        else tr in
      match transfer c.(Contract.Caller) c.(Contract.Address) c.(Contract.Value) tr with
      | (Some _, _) => None
      | (None, tr) => Some (c, snapshot, tr)
      end
  end.
End Entry.

(** A frame that returns from every transition, keeps the snapshots it found
    and adds only logs that satisfy [P]. *)
Definition frame_ok (P : Log.t -> Prop) (n : nat) (body : frame) : Prop :=
  forall tr, tinv P n tr ->
    exists ret gas err tr', body tr = Some (ret, gas, err, tr') /\ tinv P n tr' /\ text tr tr'.

End Transition.

(** Sample data for the examples: one funded account in the backend. *)
Module Samples.
Import Transition.
Definition alice : Evmc.Address := 1000.
Definition bob : Evmc.Address := 2000.
Definition carol : Evmc.Address := 3000.

Definition backend : Snapshot.t :=
  Snapshot.mk (fun _ _ _ => 0)
    (fun a => if a =? alice
              then Some (Account.mk 0 100000 Txn.EmptyRootHash
                           (Bytes.hashBytes (@Txn.EmptyCodeHash Precompiled.sampleExternals))
                           [])
              else None).

Definition config (rev : Evmc.Revision) : Config :=
  mkConfig (fun _ => 0) (mkTxContext 0 0 0 0 0 0 0 0 0) rev backend [].

Definition start (rev : Evmc.Revision) : t := NewTransition (config rev).

(** A frame that writes a slot, emits a log and stops with [err]. *)
Definition writeThenStop (err : option Err.evm_error) : prog :=
  HostSetStorage bob 1 7
    (fun _ => HostEmitLog bob [] [1] (Ret [9] 123 err)).

Definition log1 : Log.t := Log.mk bob [1] [10].
Definition log2 : Log.t := Log.mk carol [2] [20].
Definition log3 : Log.t := Log.mk bob [3] [30].

(** A call of [bob] by [alice] with nonce [n] and [gas] units of gas at
    price 1. *)
Definition callBob (n gas : Z) : Message.t := Message.mk n 1 gas (Some bob) 0 [] alice.

(** A frame that emits [log1] and [log3] and returns. *)
Definition twoLogs : prog :=
  HostEmitLog bob [1] [10] (HostEmitLog bob [3] [30] (Ret [] 1000 None)).

End Samples.

(* ===================================================================== *)
(** * Part II: lemmas and theorems                                         *)
(* ===================================================================== *)

Section WordFacts.
Import Word.

Lemma tt256_pow : tt256 = 2 ^ 256.
Proof. reflexivity. Qed.

Lemma tt256m1_ones : tt256m1 = Z.ones 256.
Proof. reflexivity. Qed.

Lemma BitLen_le (x n : Z) : 0 <= x < 2 ^ n -> 0 <= n -> BitLen x <= n.
Proof.
  intros [Hx Hlt] Hn. unfold BitLen.
  destruct (x =? 0) eqn:E; [lia|].
  apply Z.eqb_neq in E.
  rewrite Z.abs_eq by lia.
  assert (Z.log2 x < n) by (apply Z.log2_lt_pow2; lia). lia.
Qed.

Lemma BitLen_gt (x n : Z) : 2 ^ n <= x -> 0 <= n -> n < BitLen x.
Proof.
  intros Hx Hn. unfold BitLen.
  assert (0 < 2 ^ n) by (apply Z.pow_pos_nonneg; lia).
  destruct (x =? 0) eqn:E; [apply Z.eqb_eq in E; lia|].
  rewrite Z.abs_eq by lia.
  assert (n <= Z.log2 x) by (apply Z.log2_le_pow2; lia). lia.
Qed.

Lemma toU256_mod (x : Z) : toU256 x = x mod 2 ^ 256.
Proof.
  unfold toU256.
  destruct ((Sign x <? 0) || (BitLen x >? 256)) eqn:E.
  - rewrite tt256m1_ones, Z.land_ones by lia. reflexivity.
  - apply orb_false_iff in E as [Hs Hb].
    apply Z.ltb_ge in Hs. unfold Sign in Hs.
    assert (0 <= x) by (destruct x; simpl in Hs; lia).
    assert (x < 2 ^ 256).
    { destruct (Z_lt_le_dec x (2 ^ 256)) as [|Hge]; [assumption|].
      apply BitLen_gt in Hge; [|lia].
      assert ((BitLen x >? 256) = true) by (apply Z.gtb_lt; lia). congruence. }
    symmetry. apply Z.mod_small. lia.
Qed.

Lemma toU256_range (x : Z) : isU256 (toU256 x).
Proof. rewrite toU256_mod. unfold isU256. apply Z.mod_pos_bound. lia. Qed.

(** C9: [to256 (toU256 x) = x] for every signed [x] in [-2^255, 2^255). *)
Theorem to256_toU256_roundtrip (x : Z) :
  -(2 ^ 255) <= x < 2 ^ 255 -> to256 (toU256 x) = x.
Proof.
  intros [Hlo Hhi]. rewrite toU256_mod.
  destruct (Z_lt_le_dec x 0) as [Hneg|Hpos].
  - assert (Hm : x mod 2 ^ 256 = x + 2 ^ 256).
    { symmetry. apply Z.mod_unique with (q := -1); lia. }
    rewrite Hm. unfold to256.
    assert (255 < BitLen (x + 2 ^ 256)) by (apply BitLen_gt; lia).
    destruct (BitLen (x + 2 ^ 256) >? 255) eqn:E.
    + rewrite tt256_pow. lia.
    + rewrite Z.gtb_ltb in E. apply Z.ltb_ge in E. lia.
  - rewrite Z.mod_small by lia. unfold to256.
    assert (BitLen x <= 255) by (apply BitLen_le; lia).
    destruct (BitLen x >? 255) eqn:E; [|reflexivity].
    apply Z.gtb_lt in E. lia.
Qed.

Lemma to256_toU256_roundtrip_witness :
  (-(2 ^ 255) <= -5 < 2 ^ 255) /\ to256 (toU256 (-5)) = -5.
Proof.
  split; [lia | apply (to256_toU256_roundtrip (-5)); lia].
Defined.

End WordFacts.

Section EvmFacts.
Import GoInt Err Word Evm.

Lemma wrap64_small (x : Z) : 0 <= x < 2 ^ 64 -> wrap64 x = x.
Proof. intros H. unfold wrap64. apply Z.mod_small. exact H. Qed.

Lemma Uint64_small (x : Z) : 0 <= x < 2 ^ 64 -> Uint64 x = x.
Proof. intros H. unfold Uint64. rewrite Z.abs_eq by lia. apply Z.mod_small. exact H. Qed.

Lemma set_stack_twice (v w : list Z) (c : state) :
  set_stack v (set_stack w c) = set_stack v c.
Proof. reflexivity. Qed.

(** The bit the instruction tests, for an operand that passes the guard. *)
Lemma signext_bit (ext : Z) :
  0 <= ext <= 32 -> add64 (mul64 (Uint64 ext) 8) 7 = 8 * ext + 7.
Proof.
  intros H. unfold add64, mul64.
  rewrite Uint64_small by lia.
  rewrite (wrap64_small (ext * 8)) by lia.
  rewrite wrap64_small by lia. lia.
Qed.

Lemma signext_mask (b : Z) : Z.shiftl 1 b - 1 = Z.ones b.
Proof. unfold Z.ones. lia. Qed.

Lemma testbit_ones_at (b i : Z) :
  0 <= b -> 0 <= i -> Z.testbit (Z.ones b) i = (i <? b).
Proof.
  intros Hb Hi. destruct (i <? b) eqn:E.
  - apply Z.ltb_lt in E. apply Z.ones_spec_low. lia.
  - apply Z.ltb_ge in E. apply Z.ones_spec_high. lia.
Qed.

Lemma testbit_U256_high (x i : Z) : isU256 x -> 256 <= i -> Z.testbit x i = false.
Proof.
  intros [H0 H1] Hi.
  destruct (Z.eq_dec x 0) as [->|Hne]; [apply Z.bits_0|].
  apply Z.bits_above_log2; [lia|].
  assert (Z.log2 x < 256) by (apply Z.log2_lt_pow2; lia). lia.
Qed.

(** The word the instruction leaves, bit by bit. *)
Lemma signext_bits (x b i : Z) :
  0 <= b -> 0 <= i < 256 ->
  Z.testbit
    (toU256 (if Z.testbit x b then Z.lor x (Z.lnot (Z.ones b)) else Z.land x (Z.ones b))) i
  = if i <=? b then Z.testbit x i else Z.testbit x b.
Proof.
  intros Hb Hi. rewrite toU256_mod.
  rewrite Z.mod_pow2_bits_low by lia.
  destruct (Z.testbit x b) eqn:Eb.
  - rewrite Z.lor_spec, Z.lnot_spec by lia.
    rewrite testbit_ones_at by lia.
    destruct (i <=? b) eqn:E1; destruct (i <? b) eqn:E2; simpl;
      try rewrite orb_false_r; try rewrite orb_true_r; try reflexivity.
    + apply Z.leb_le in E1. apply Z.ltb_ge in E2.
      assert (i = b) by lia. subst i. symmetry. exact Eb.
    + apply Z.leb_gt in E1. apply Z.ltb_lt in E2. lia.
  - rewrite Z.land_spec. rewrite testbit_ones_at by lia.
    destruct (i <=? b) eqn:E1; destruct (i <? b) eqn:E2; simpl;
      try rewrite andb_false_r; try rewrite andb_true_r; try reflexivity.
    + apply Z.leb_le in E1. apply Z.ltb_ge in E2.
      assert (i = b) by lia. subst i. symmetry. exact Eb.
    + apply Z.leb_gt in E1. apply Z.ltb_lt in E2. lia.
Qed.

Lemma U256_eq_bits (a b : Z) :
  isU256 a -> isU256 b ->
  (forall i, 0 <= i < 256 -> Z.testbit a i = Z.testbit b i) -> a = b.
Proof.
  intros Ha Hb H. apply Z.bits_inj'. intros i Hi.
  destruct (Z_lt_le_dec i 256) as [Hlt|Hge].
  - apply H. lia.
  - rewrite !testbit_U256_high by assumption. reflexivity.
Qed.

(** C7: SIGNEXTEND with operands [ext] (top of the stack) and [x] replaces
    [x] by a word [r] that, for [ext <= 31], agrees with [x] up to bit
    [8*ext+7] and repeats that bit in every higher position, and that is [x]
    itself for every [ext > 31]. *)
Theorem opSignExtension_spec (c : state) (ext x : Z) (rest : list Z) :
  c.(stack) = ext :: x :: rest -> isU256 ext -> isU256 x ->
  exists r,
    opSignExtension c = Some (set_stack (r :: rest) c) /\ isU256 r /\
    (ext <= 31 ->
       forall i, 0 <= i < 256 ->
         Z.testbit r i = if i <=? 8 * ext + 7 then Z.testbit x i
                         else Z.testbit x (8 * ext + 7)) /\
    (31 < ext -> r = x).
Proof.
  intros Hst Hext Hx. unfold opSignExtension, pop, top. rewrite Hst. simpl.
  unfold wordSize.
  destruct (ext >? 32) eqn:Egt.
  - apply Z.gtb_lt in Egt. exists x. repeat split; try apply Hx; intros; lia.
  - rewrite Z.gtb_ltb in Egt. apply Z.ltb_ge in Egt.
    destruct Hext as [Hext0 Hext1].
    rewrite signext_bit by lia. rewrite signext_mask.
    eexists. split; [reflexivity|]. split; [apply toU256_range|]. split.
    + intros _ i Hi. apply signext_bits; lia.
    + intros H31. assert (ext = 32) by lia. subst ext.
      apply U256_eq_bits; [apply toU256_range | exact Hx |].
      intros i Hi. rewrite signext_bits by lia.
      change (8 * 32 + 7) with 263.
      destruct (i <=? 263) eqn:E; [reflexivity|]. apply Z.leb_gt in E. lia.
Qed.

Lemma opSignExtension_spec_witness :
  exists r,
    opSignExtension (state0 Evmc.Istanbul 0 100 [0; 0xff; 5])
    = Some (set_stack (r :: [5]) (state0 Evmc.Istanbul 0 100 [0; 0xff; 5])) /\
    isU256 r /\
    (0 <= 31 ->
       forall i, 0 <= i < 256 ->
         Z.testbit r i = if i <=? 8 * 0 + 7 then Z.testbit 0xff i
                         else Z.testbit 0xff (8 * 0 + 7)) /\
    (31 < 0 -> r = 0xff).
Proof.
  apply (opSignExtension_spec _ 0 0xff [5]); [reflexivity | |]; unfold isU256; lia.
Defined.

(** SIGNEXTEND(0, 0xff) is the all-ones word, SIGNEXTEND(0, 0x7f) is 0x7f. *)
Example opSignExtension_ff :
  option_map stack (opSignExtension (state0 Evmc.Istanbul 0 100 [0; 0xff; 5]))
  = Some [2 ^ 256 - 1; 5].
Proof. vm_compute. reflexivity. Qed.

(** *** Memory expansion *)

Lemma len_nonneg {A : Type} (l : list A) : 0 <= len l.
Proof. unfold len. lia. Qed.

Lemma extendByteSlice_grow (b : list Z) (n : Z) :
  len b <= n -> extendByteSlice b n = b ++ repeat 0 (Z.to_nat (n - len b)).
Proof.
  intros H. unfold extendByteSlice. apply take_ge.
  rewrite length_app, repeat_length. unfold len in *. lia.
Qed.

Lemma extendByteSlice_len (b : list Z) (n : Z) :
  len b <= n -> len (extendByteSlice b n) = n.
Proof.
  intros H. rewrite extendByteSlice_grow by exact H.
  unfold len in *. rewrite length_app, repeat_length. lia.
Qed.

Lemma IsUint64_small (x : Z) : 0 <= x < 2 ^ 64 -> IsUint64 x = true.
Proof.
  intros H. unfold IsUint64, MaxUint64.
  apply andb_true_iff. split; apply Z.leb_le; lia.
Qed.

Lemma memoryCost_mono (a b : Z) : 0 <= a <= b -> memoryCost a <= memoryCost b.
Proof.
  intros H. unfold memoryCost.
  assert (a * a <= b * b) by nia.
  assert (a * a / 512 <= b * b / 512) by (apply Z.div_le_mono; lia). lia.
Qed.

(** The two guards of [checkMemory] that end in GasUintOverflow. *)
Lemma checkMemory_overflow (c : state) (offset size : Z) :
  0 <= offset -> 0 < size ->
  (0xffffffffe0 < offset \/ 0xffffffffe0 < size) ->
  checkMemory (Some offset) (Some size) c = Some (false, exit errGasUintOverflow c).
Proof.
  intros Ho Hs Hbig. unfold checkMemory.
  assert (Hsg : (Sign size =? 0) = false).
  { apply Z.eqb_neq. unfold Sign. destruct size; simpl; lia. }
  rewrite Hsg.
  destruct (negb (IsUint64 offset) || negb (IsUint64 size)) eqn:E1; [reflexivity|].
  apply orb_false_iff in E1 as [Eo Es].
  apply negb_false_iff in Eo, Es.
  unfold IsUint64, MaxUint64 in Eo, Es.
  apply andb_true_iff in Eo as [_ Eo]. apply andb_true_iff in Es as [_ Es].
  apply Z.leb_le in Eo, Es.
  rewrite !Uint64_small by lia.
  assert (E2 : (offset >? 0xffffffffe0) || (size >? 0xffffffffe0) = true).
  { apply orb_true_iff. destruct Hbig; [left|right]; apply Z.gtb_lt; lia. }
  rewrite E2. reflexivity.
Qed.

(** C6 (amended): a size-zero access returns at once, whatever the offset;
    an access of non-zero size whose offset or size exceeds 0xFFFFFFFFE0 halts
    with GasUintOverflow; an access already covered by the memory changes
    nothing; any other access of [n] words, [n < 2^32], is charged
    [3n + n*n/512] minus the cost already paid and leaves the memory [32n]
    bytes long, or halts with OutOfGas when the gas does not cover the
    charge. *)
Theorem checkMemory_spec (c : state) (offset size : Z) :
  0 <= offset -> 0 <= size ->
  (size = 0 -> checkMemory (Some offset) (Some size) c = Some (true, c)) /\
  (size <> 0 -> 0xffffffffe0 < offset \/ 0xffffffffe0 < size ->
     checkMemory (Some offset) (Some size) c
       = Some (false, exit errGasUintOverflow c)) /\
  (size <> 0 -> offset <= 0xffffffffe0 -> size <= 0xffffffffe0 ->
     offset + size <= len c.(memory) ->
     checkMemory (Some offset) (Some size) c = Some (true, c)) /\
  (size <> 0 -> offset <= 0xffffffffe0 -> size <= 0xffffffffe0 ->
     len c.(memory) < offset + size ->
     let n := (offset + size + 31) / 32 in
     n < 2 ^ 32 -> 0 <= c.(lastGasCost) <= memoryCost n ->
     (memoryCost n - c.(lastGasCost) <= c.(gas) ->
        exists c',
          checkMemory (Some offset) (Some size) c = Some (true, c') /\
          c'.(gas) = c.(gas) - (memoryCost n - c.(lastGasCost)) /\
          c'.(lastGasCost) = memoryCost n /\
          len c'.(memory) = 32 * n /\
          c'.(memory) = c.(memory) ++ repeat 0 (Z.to_nat (32 * n - len c.(memory))) /\
          c'.(err) = c.(err) /\ c'.(stack) = c.(stack)) /\
     (c.(gas) < memoryCost n - c.(lastGasCost) ->
        exists c',
          checkMemory (Some offset) (Some size) c = Some (false, c') /\
          c'.(err) = Some errOutOfGas /\ c'.(stop) = true /\
          c'.(gas) = c.(gas) /\ c'.(memory) = c.(memory))).
Proof.
  intros Ho Hs. split; [|split; [|split]].
  - intros ->. reflexivity.
  - intros Hne Hbig. apply checkMemory_overflow; lia.
  - intros Hne Ho' Hs' Hcov. unfold checkMemory.
    assert (Hsg : (Sign size =? 0) = false).
    { apply Z.eqb_neq. unfold Sign. destruct size; simpl; lia. }
    rewrite Hsg, !IsUint64_small by lia. simpl.
    rewrite !Uint64_small by lia.
    assert (E : (offset >? 0xffffffffe0) || (size >? 0xffffffffe0) = false).
    { apply orb_false_iff. rewrite !Z.gtb_ltb. split; apply Z.ltb_ge; lia. }
    rewrite E. unfold add64. rewrite wrap64_small by lia.
    assert (E2 : (len (memory c) <? offset + size) = false) by (apply Z.ltb_ge; lia).
    rewrite E2. reflexivity.
  - intros Hne Ho' Hs' Hgrow n Hn Hlast.
    assert (Hn0 : 0 <= n) by (apply Z.div_pos; lia).
    assert (Hnn : 0 <= n * n / 512) by (apply Z.div_pos; nia).
    assert (Hnn' : n * n / 512 < 2 ^ 55).
    { apply Z.div_lt_upper_bound; [lia|]. nia. }
    assert (Hred : checkMemory (Some offset) (Some size) c =
      match consumeGas (memoryCost n - c.(lastGasCost))
              (set_lastGasCost (memoryCost n) c) with
      | (false, c2) => Some (false, exit errOutOfGas c2)
      | (true, c2) =>
          Some (true, set_memory (extendByteSlice c2.(memory) (32 * n)) c2)
      end).
    { unfold checkMemory.
      assert (Hsg : (Sign size =? 0) = false).
      { apply Z.eqb_neq. unfold Sign. destruct size; simpl; lia. }
      rewrite Hsg, !IsUint64_small by lia. simpl.
      rewrite !Uint64_small by lia.
      assert (E : (offset >? 0xffffffffe0) || (size >? 0xffffffffe0) = false).
      { apply orb_false_iff. rewrite !Z.gtb_ltb. split; apply Z.ltb_ge; lia. }
      rewrite E. unfold add64, mul64, sub64.
      rewrite (wrap64_small (offset + size)) by lia.
      assert (E2 : (len (memory c) <? offset + size) = true) by (apply Z.ltb_lt; lia).
      rewrite E2.
      rewrite (wrap64_small (offset + size + 31)) by lia.
      fold n.
      rewrite (wrap64_small (3 * n)) by lia.
      rewrite (wrap64_small (n * n)) by nia.
      rewrite (wrap64_small (3 * n + n * n / 512)) by lia.
      fold (memoryCost n).
      rewrite (wrap64_small (memoryCost n - lastGasCost c))
        by (unfold memoryCost in *; lia).
      rewrite (wrap64_small (n * 32)) by lia.
      replace (n * 32) with (32 * n) by lia. reflexivity. }
    assert (Hlen : len (memory c) <= 32 * n).
    { unfold n. pose proof (Z.div_mod (offset + size + 31) 32 ltac:(lia)).
      pose proof (Z.mod_pos_bound (offset + size + 31) 32 ltac:(lia)). lia. }
    split.
    + intros Hgas. rewrite Hred. unfold consumeGas. simpl.
      assert (E3 : (gas c <? memoryCost n - lastGasCost c) = false)
        by (apply Z.ltb_ge; lia).
      rewrite E3. eexists. split; [reflexivity|]. simpl.
      rewrite extendByteSlice_len, extendByteSlice_grow by exact Hlen.
      repeat split; reflexivity.
    + intros Hgas. rewrite Hred. unfold consumeGas. simpl.
      assert (E3 : (gas c <? memoryCost n - lastGasCost c) = true)
        by (apply Z.ltb_lt; lia).
      rewrite E3. eexists. split; [reflexivity|]. simpl.
      repeat split; reflexivity.
Qed.

Lemma checkMemory_spec_witness :
  (0 <= 0 /\ 0 <= 32) /\
  exists c',
    checkMemory (Some 0) (Some 32) (state0 Evmc.Istanbul 0 100 []) = Some (true, c') /\
    c'.(gas) = 97 /\ len c'.(memory) = 32.
Proof.
  split; [lia|].
  destruct (checkMemory_spec (state0 Evmc.Istanbul 0 100 []) 0 32)
    as (_ & _ & _ & H); [lia | lia |].
  destruct H as [H _]; try (vm_compute; intuition congruence).
  destruct (H ltac:(vm_compute; congruence)) as (c' & E & Hg & _ & Hl & _).
  exists c'. split; [exact E|]. split; [exact Hg | exact Hl].
Defined.

(** C6, the claim as stated fails: with size 0 an offset beyond 0xFFFFFFFFE0
    does not halt the frame. *)
Lemma checkMemory_zero_size_huge_offset :
  checkMemory (Some (2 ^ 200)) (Some 0) (state0 Evmc.Istanbul 0 100 [])
    = Some (true, state0 Evmc.Istanbul 0 100 []) /\
  0xffffffffe0 < 2 ^ 200 /\
  (state0 Evmc.Istanbul 0 100 []).(err) = None.
Proof. split; [reflexivity|]. split; [lia | reflexivity]. Qed.

(** Past 2^32 words the product [w*w] wraps in [uint64]: an access at offset
    0xFFFFFFFFE0 of 32 bytes is charged 3 * 2^35 and not
    [memoryCost (2^35)]. *)
Lemma checkMemory_cost_wraps :
  option_map (fun r => (fst r, (snd r).(gas), (snd r).(lastGasCost)))
    (checkMemory (Some 0xffffffffe0) (Some 32) (state0 Evmc.Istanbul 0 (2 ^ 62) []))
  = Some (true, 2 ^ 62 - 3 * 2 ^ 35, 3 * 2 ^ 35) /\
  memoryCost (2 ^ 35) = 3 * 2 ^ 35 + 2 ^ 61.
Proof.
  split; [|reflexivity].
  unfold checkMemory, state0. simpl.
  unfold consumeGas. simpl. reflexivity.
Qed.

End EvmFacts.

Section CallDepth.
Import GoInt Err Word Evm.




















(** *** No frame below depth 1024 starts another one *)













End CallDepth.

Section PrecompiledFacts.
Import GoInt Err Precompiled.
Context `{X : Externals}.

Lemma int64_small (x : Z) : 0 <= x < 2 ^ 63 -> int64 x = x.
Proof.
  intros H. unfold int64. rewrite Z.mod_small by lia.
  destruct (x <? 2 ^ 63) eqn:E; [reflexivity|]. apply Z.ltb_ge in E. lia.
Qed.

(** Reading an [int64] made from a [uint64] back as [uint64], as every
    caller of the driver does, gives the value again. *)
Lemma uint64_int64 (x : Z) : 0 <= x < 2 ^ 64 -> uint64 (int64 x) = x.
Proof.
  intros H. unfold uint64, int64. rewrite (Z.mod_small x) by lia.
  destruct (x <? 2 ^ 63) eqn:E.
  - apply Z.mod_small. lia.
  - apply Z.ltb_ge in E.
    symmetry. apply Z.mod_unique with (q := -1); lia.
Qed.

Lemma Identity_registered : precompiledContracts addr4 = Some Identity.
Proof. reflexivity. Qed.

(** C8: for a contract [c] registered at [addr], [runPrecompiled] fails with
    "out of gas" when the budget is below [c]'s gas function; otherwise it
    runs [c] and, when that succeeds, returns the output with the budget
    minus the cost (as the [int64] the function returns, which is the
    number itself below 2^63 and reads back as it in [uint64]); when the
    run fails it returns the error and no gas. IDENTITY on 0xdeadbeef costs
    18: a budget of 18 returns the input and 0 gas, a budget of 17 fails. *)
Theorem runPrecompiled_spec (addr : Evmc.Address) (c : contract) (input : list Z)
    (gas : Z) (rev : Evmc.Revision) :
  precompiledContracts addr = Some c ->
  0 <= gas < 2 ^ 64 ->
  let cost := c.(Gas) input rev in
  (gas < cost ->
     runPrecompiled addr input gas rev
       = Some ([], 0, Some (errorString "out of gas"))) /\
  (cost <= gas ->
     forall out,
       c.(Run) input = (out, None) ->
       runPrecompiled addr input gas rev = Some (out, int64 (gas - cost), None) /\
       (0 <= cost -> uint64 (int64 (gas - cost)) = gas - cost) /\
       (0 <= cost -> gas - cost < 2 ^ 63 -> int64 (gas - cost) = gas - cost)) /\
  (cost <= gas ->
     forall out e,
       c.(Run) input = (out, Some e) ->
       runPrecompiled addr input gas rev = Some ([], 0, Some e)) /\
  precompiledContracts addr4 = Some Identity /\
  Identity.(Gas) [0xde; 0xad; 0xbe; 0xef] rev = 18 /\
  runPrecompiled addr4 [0xde; 0xad; 0xbe; 0xef] 18 rev
    = Some ([0xde; 0xad; 0xbe; 0xef], 0, None) /\
  runPrecompiled addr4 [0xde; 0xad; 0xbe; 0xef] 17 rev
    = Some ([], 0, Some (errorString "out of gas")).
Proof.
  intros Hc Hgas cost.
  split; [|split; [|split; [|repeat split]]].
  - intros Hlt. unfold runPrecompiled. rewrite Hc. fold cost.
    apply Z.ltb_lt in Hlt. rewrite Hlt. reflexivity.
  - intros Hge out Hrun. split; [|split].
    + unfold runPrecompiled. rewrite Hc. fold cost.
      apply Z.ltb_ge in Hge. rewrite Hge, Hrun. reflexivity.
    + intros Hc0. apply uint64_int64. lia.
    + intros Hc0 Hlt. apply int64_small. lia.
  - intros Hge out e Hrun. unfold runPrecompiled. rewrite Hc. fold cost.
    apply Z.ltb_ge in Hge. rewrite Hge, Hrun. reflexivity.
Qed.

End PrecompiledFacts.

Lemma runPrecompiled_spec_witness :
  @Precompiled.runPrecompiled Precompiled.sampleExternals 4 [1; 2; 3] 100 Evmc.Istanbul
    = Some ([1; 2; 3], 82, None).
Proof.
  destruct (@runPrecompiled_spec Precompiled.sampleExternals 4 Precompiled.Identity
              [1; 2; 3] 100 Evmc.Istanbul eq_refl ltac:(lia))
    as (_ & H & _).
  destruct (H ltac:(vm_compute; congruence) [1; 2; 3] eq_refl) as (E & _).
  exact E.
Defined.

Section TxnFacts.
Import GoInt Err Txn.
Context `{X : Precompiled.Externals}.

Lemma getStateObject_insert (x : Txn.t) (addr : Evmc.Address) (o : StateObject.t) :
  getStateObject (insertObject addr o x) addr
  = if o.(StateObject.Deleted) then None else Some (StateObject.Copy o).
Proof.
  unfold getStateObject, insertObject. cbn. rewrite lookup_insert_eq. reflexivity.
Qed.

Lemma getStateObject_live (x : Txn.t) (addr : Evmc.Address) (o : StateObject.t) :
  getStateObject x addr = Some o -> o.(StateObject.Deleted) = false.
Proof.
  unfold getStateObject. intros H.
  destruct (objs (txn x) !! addr) as [obj|].
  - destruct (StateObject.Deleted obj) eqn:E; [discriminate|].
    inversion H. cbn. exact E.
  - destruct (Snapshot.GetAccount (snapshot x) addr); inversion H. reflexivity.
Qed.

Lemma getStateObject_putRefund (r : option Z) (x : Txn.t) (addr : Evmc.Address) :
  getStateObject (putRefund r x) addr = getStateObject x addr.
Proof. reflexivity. Qed.

Lemma GetState_putRefund (r : option Z) (x : Txn.t) (addr : Evmc.Address) (key : Evmc.Hash) :
  GetState (putRefund r x) addr key = GetState x addr key.
Proof. reflexivity. Qed.

Lemma GetRefund_upsert (addr : Evmc.Address) (create : bool)
    (f : StateObject.t -> StateObject.t) (x : Txn.t) :
  GetRefund (upsertAccount addr create f x) = GetRefund x.
Proof.
  unfold upsertAccount.
  destruct (getStateObject x addr); [reflexivity|]. destruct create; reflexivity.
Qed.

Lemma GetState_SetState (x : Txn.t) (addr : Evmc.Address) (key value : Evmc.Hash) :
  GetState (SetState addr key value x) addr key = value.
Proof.
  unfold SetState, upsertAccount.
  destruct (getStateObject x addr) as [object|] eqn:E.
  - apply getStateObject_live in E as Hl.
    unfold GetState. rewrite getStateObject_insert. cbn. rewrite Hl. cbn.
    unfold zeroHash. case_bool_decide as Hv.
    + rewrite lookup_insert_eq. congruence.
    + rewrite lookup_insert_eq. reflexivity.
  - unfold GetState. rewrite getStateObject_insert. cbn.
    unfold zeroHash. case_bool_decide as Hv.
    + rewrite lookup_insert_eq. congruence.
    + rewrite lookup_insert_eq. reflexivity.
Qed.

Lemma GetRefund_AddRefund (g : Z) (x : Txn.t) :
  GetRefund (AddRefund g x) = add64 (GetRefund x) g.
Proof. reflexivity. Qed.

Lemma GetRefund_SubRefund (g : Z) (x : Txn.t) :
  GetRefund (SubRefund g x) = sub64 (GetRefund x) g.
Proof. reflexivity. Qed.

Lemma isRevision_SetState r addr key value x :
  isRevision r (SetState addr key value x) = isRevision r x.
Proof.
  unfold SetState, upsertAccount, isRevision.
  destruct (getStateObject x addr); reflexivity.
Qed.

(** C2: [SetStorage] returns Unchanged, and leaves the overlay as it is, when
    the new value is the current one; otherwise it writes the slot and, on the
    path that is not legacy-metered, classifies the write from the committed
    ([original]) and the overlaid ([current]) value: first write of the slot
    ([original = current]) Added, Deleted with 15000 added to the refund, or
    Modified; repeated write ModifiedAgain with the refund adjusted as the
    specification lists. The counter is a [uint64]: [add64] and [sub64]. *)
Theorem SetStorage_spec (x : Txn.t) (addr : Evmc.Address) (key value : Evmc.Hash) :
  let original := GetCommittedState x addr key in
  let current := GetState x addr key in
  let status := fst (SetStorage addr key value x) in
  let x' := snd (SetStorage addr key value x) in
  (value = current -> status = Evmc.StorageUnchanged /\ x' = x) /\
  (value <> current ->
     GetState x' addr key = value /\
     (legacyGasMetering x = false ->
        (original = current ->
           (original = 0 ->
              status = Evmc.StorageAdded /\ GetRefund x' = GetRefund x) /\
           (original <> 0 -> value = 0 ->
              status = Evmc.StorageDeleted /\
              GetRefund x' = add64 (GetRefund x) 15000) /\
           (original <> 0 -> value <> 0 ->
              status = Evmc.StorageModified /\ GetRefund x' = GetRefund x)) /\
        (original <> current ->
           status = Evmc.StorageModifiedAgain /\
           GetRefund x' =
             repeatedWriteRefund (isRevision Evmc.Istanbul x) original current value
               (GetRefund x)))).
Proof.
  intros original current status x'. subst status x'. unfold SetStorage.
  fold current. fold original.
  split.
  - intros ->. rewrite bool_decide_eq_true_2 by reflexivity. split; reflexivity.
  - intros Hne. rewrite bool_decide_eq_false_2 by congruence.
    rewrite !isRevision_SetState.
    pose proof (GetState_SetState x addr key value) as Hw.
    pose proof (GetRefund_upsert addr true) as Hr.
    split.
    + repeat case_bool_decide; repeat (destruct (_ && _) || destruct (isRevision _ _));
        cbn; try rewrite !GetState_putRefund; exact Hw.
    + intros Hleg. unfold legacyGasMetering in Hleg. rewrite Hleg.
      unfold zeroHash. split.
      * intros Heq. rewrite (bool_decide_eq_true_2 _ Heq). split; [|split].
        -- intros H0. rewrite (bool_decide_eq_true_2 _ H0). cbn [fst snd]. split; [reflexivity|].
           apply Hr.
        -- intros H0 Hv. rewrite (bool_decide_eq_false_2 _ H0), (bool_decide_eq_true_2 _ Hv).
           cbn [fst snd]. split; [reflexivity|]. rewrite GetRefund_AddRefund. f_equal. apply Hr.
        -- intros H0 Hv. rewrite (bool_decide_eq_false_2 _ H0), (bool_decide_eq_false_2 _ Hv).
           cbn [fst snd]. split; [reflexivity|]. apply Hr.
      * intros Hneq. rewrite (bool_decide_eq_false_2 _ Hneq).
        cbn [fst snd]. split; [reflexivity|].
        unfold repeatedWriteRefund.
        assert (Hr' : GetRefund (SetState addr key value x) = GetRefund x) by apply Hr.
        destruct (Z.eqb_spec original 0); destruct (Z.eqb_spec current 0);
          destruct (Z.eqb_spec value 0); destruct (Z.eqb_spec original value);
          repeat case_bool_decide; try congruence; cbn [negb andb];
          destruct (isRevision Evmc.Istanbul x);
          rewrite ?GetRefund_AddRefund, ?GetRefund_SubRefund, ?GetRefund_AddRefund, Hr';
          reflexivity.
Qed.

End TxnFacts.

Lemma SetStorage_spec_witness :
  fst (@Txn.SetStorage Precompiled.sampleExternals 7 1 5
         (Txn.mk Snapshot.EmptyState [] Txn.emptyTree Evmc.Istanbul))
    = Evmc.StorageAdded /\
  Txn.GetState
    (snd (@Txn.SetStorage Precompiled.sampleExternals 7 1 5
            (Txn.mk Snapshot.EmptyState [] Txn.emptyTree Evmc.Istanbul))) 7 1 = 5.
Proof.
  destruct (@SetStorage_spec Precompiled.sampleExternals
              (Txn.mk Snapshot.EmptyState [] Txn.emptyTree Evmc.Istanbul) 7 1 5)
    as [_ H].
  destruct (H ltac:(vm_compute; congruence)) as [Hw Hc].
  destruct (Hc eq_refl) as [Hfirst _].
  destruct (Hfirst eq_refl) as [Hadd _].
  split; [apply (Hadd eq_refl) | exact Hw].
Defined.

(** Istanbul, slot 0 at the start: writing 1 is Added; writing 0 again is a
    repeated write that restores the original value, ModifiedAgain with a
    refund of 19200. *)
Example SetStorage_write_then_clear :
  let x0 := Txn.mk Snapshot.EmptyState [] Txn.emptyTree Evmc.Istanbul in
  let r1 := @Txn.SetStorage Precompiled.sampleExternals 7 1 1 x0 in
  let r2 := @Txn.SetStorage Precompiled.sampleExternals 7 1 0 (snd r1) in
  fst r1 = Evmc.StorageAdded /\ fst r2 = Evmc.StorageModifiedAgain /\
  Txn.GetRefund (snd r2) = 19200.
Proof. vm_compute. repeat split. Qed.

Section DriverFacts.
Import GoInt Err Transition.
Context `{X : Precompiled.Externals}.
Variable P : Log.t -> Prop.
Variable n : nat.

Lemma quiet_refl x : quiet x x.
Proof. repeat split. Qed.

Lemma quiet_trans x y z : quiet x y -> quiet y z -> quiet x z.
Proof. unfold quiet. intuition congruence. Qed.

Lemma quiet_inv x x' : quiet x x' -> inv P n x -> inv P n x'.
Proof.
  intros (Hs & _ & _ & Hl) (Hn & Hlive & Hsn). unfold inv, logsOK in *.
  rewrite Hs, Hl. auto.
Qed.

Lemma quiet_ext x x' : quiet x x' -> ext x x'.
Proof. intros (Hs & Hb & Hr & _). unfold ext. rewrite Hs. auto. Qed.

Lemma ext_refl x : ext x x.
Proof. split; [reflexivity | split; reflexivity]. Qed.

Lemma ext_trans x y z : ext x y -> ext y z -> ext x z.
Proof.
  intros (H1 & H2 & H3) (H4 & H5 & H6). repeat split; try congruence.
  etransitivity; eassumption.
Qed.

Lemma text_refl tr : text tr tr.
Proof. split; [apply ext_refl | reflexivity]. Qed.

Lemma text_trans a b c : text a b -> text b c -> text a c.
Proof. intros [H1 H2] [H3 H4]. split; [eapply ext_trans; eassumption | congruence]. Qed.

Lemma quiet_insertObject addr o x : quiet x (Txn.insertObject addr o x).
Proof. repeat split. Qed.

Lemma quiet_putRefund r x : quiet x (Txn.putRefund r x).
Proof. repeat split. Qed.

Lemma quiet_upsert addr create f x : quiet x (Txn.upsertAccount addr create f x).
Proof.
  unfold Txn.upsertAccount. destruct (Txn.getStateObject x addr); [repeat split|].
  destruct create; repeat split.
Qed.

Lemma quiet_SubBalance addr amount x : quiet x (snd (Txn.SubBalance addr amount x)).
Proof.
  unfold Txn.SubBalance. destruct (Z.sgn amount =? 0); [apply quiet_refl|].
  destruct (Txn.GetBalance x addr <? amount); [apply quiet_refl|]. apply quiet_upsert.
Qed.

Lemma quiet_SetStorage addr key value x : quiet x (snd (Txn.SetStorage addr key value x)).
Proof.
  unfold Txn.SetStorage.
  pose proof (quiet_upsert addr true) as Hu.
  assert (Hs : quiet x (Txn.SetState addr key value x)) by apply Hu.
  repeat match goal with
  | |- context [if ?b then _ else _] => destruct b
  end; cbn [snd]; try apply quiet_refl; try exact Hs;
  repeat (eapply quiet_trans; [|apply quiet_putRefund]); try exact Hs.
Qed.

Lemma quiet_Suicide addr x : quiet x (snd (Txn.Suicide addr x)).
Proof.
  unfold Txn.Suicide. destruct (Txn.getStateObject x addr); [repeat split|apply quiet_refl].
Qed.

Lemma quiet_CreateAccount addr x : quiet x (Txn.CreateAccount addr x).
Proof. repeat split. Qed.

Lemma quiet_CleanDeleteObjects b x : quiet x (Txn.CleanDeleteObjects b x).
Proof. repeat split. Qed.

Lemma inv_EmitLog addr topics data x :
  P (Log.mk addr topics data) -> inv P n x -> inv P n (Txn.EmitLog addr topics data x).
Proof.
  intros HP (Hn & Hlive & Hsn). unfold inv, logsOK in *. cbn.
  split; [exact Hn|]. split; [|exact Hsn].
  apply Forall_app. split; [|repeat constructor; exact HP].
  destruct (Txn.logs (Txn.txn x)); [exact Hlive | constructor].
Qed.

Lemma ext_EmitLog addr topics data x : ext x (Txn.EmitLog addr topics data x).
Proof. split; [reflexivity | split; reflexivity]. Qed.

Lemma Snapshot_spec x :
  Txn.Snapshot x
  = (Z.of_nat (length (Txn.snapshots x)),
     Txn.mk (Txn.snapshot x) (Txn.snapshots x ++ [Txn.txn x]) (Txn.txn x) (Txn.rev x)).
Proof. reflexivity. Qed.

Lemma inv_Snapshot x : inv P n x -> inv P n (snd (Txn.Snapshot x)).
Proof.
  intros (Hn & Hlive & Hsn). unfold inv. cbn.
  rewrite length_app. cbn. split; [lia|]. split; [exact Hlive|].
  intros i tr Hi Hlk.
  apply lookup_app_Some in Hlk as [Hlk|[Hge Hlk]].
  - eapply Hsn; eassumption.
  - apply list_lookup_singleton_Some in Hlk as [_ <-]. exact Hlive.
Qed.

Lemma ext_Snapshot x : ext x (snd (Txn.Snapshot x)).
Proof. cbn. repeat split. apply prefix_app_r. reflexivity. Qed.

(** Reverting to a snapshot taken at [x0], from any later state [x]. *)
Lemma RevertToSnapshot_later x0 x :
  ext (snd (Txn.Snapshot x0)) x ->
  Txn.RevertToSnapshot (fst (Txn.Snapshot x0)) x = Some (Txn.set_txn (Txn.txn x0) x).
Proof.
  intros ([k Hk] & _ & _). cbn in Hk. unfold Txn.RevertToSnapshot. cbn [fst Txn.Snapshot].
  unfold len. rewrite Hk. rewrite !length_app. cbn [length].
  destruct (Z.of_nat (length (Txn.snapshots x0)) >?
            Z.of_nat (length (Txn.snapshots x0) + 1 + length k)) eqn:E1;
    [apply Z.gtb_lt in E1; lia|].
  destruct (Z.of_nat (length (Txn.snapshots x0)) <? 0) eqn:E2;
    [apply Z.ltb_lt in E2; lia|].
  rewrite Nat2Z.id.
  rewrite <- app_assoc. rewrite lookup_app_r by lia.
  rewrite Nat.sub_diag. reflexivity.
Qed.

Lemma inv_revert x0 x :
  inv P n x0 -> inv P n x -> inv P n (Txn.set_txn (Txn.txn x0) x).
Proof.
  intros (_ & Hlive0 & _) (Hn & _ & Hsn). unfold inv. cbn. auto.
Qed.

Lemma ext_set_txn tr x : ext x (Txn.set_txn tr x).
Proof. split; [reflexivity | split; reflexivity]. Qed.


Lemma tinv_quiet tr x : quiet tr.(txn) x -> tinv P n tr -> tinv P n (set_txn x tr).
Proof. intros Hq Hi. unfold tinv. cbn. eapply quiet_inv; eassumption. Qed.

Lemma text_quiet tr x : quiet tr.(txn) x -> text tr (set_txn x tr).
Proof. intros Hq. split; [apply quiet_ext; exact Hq | reflexivity]. Qed.

Lemma transfer_quiet from to amount tr :
  quiet tr.(txn) (snd (transfer from to amount tr)).(txn)
  /\ (snd (transfer from to amount tr)).(config) = tr.(config).
Proof.
  unfold transfer. destruct amount as [amount|]; [|split; [apply quiet_refl|reflexivity]].
  pose proof (quiet_SubBalance from amount tr.(txn)) as Hs.
  destruct (Txn.SubBalance from amount tr.(txn)) as [[err|] x]; cbn in *.
  - split; [exact Hs | reflexivity].
  - split; [|reflexivity]. eapply quiet_trans; [exact Hs | apply quiet_upsert].
Qed.

Lemma transfer_ok from to amount tr :
  tinv P n tr ->
  tinv P n (snd (transfer from to amount tr)) /\ text tr (snd (transfer from to amount tr)).
Proof.
  intros Hi. destruct (transfer_quiet from to amount tr) as [Hq Hc].
  split.
  - unfold tinv. eapply quiet_inv; eassumption.
  - split; [apply quiet_ext; exact Hq | exact Hc].
Qed.

Lemma runPrecompiled_total addr input gas r tr :
  isPrecompiled addr tr = true ->
  exists ret g err, Precompiled.runPrecompiled addr input gas r = Some (ret, g, err)
    /\ (forall e, err = Some e -> g = 0 /\ ret = []).
Proof.
  unfold isPrecompiled, Precompiled.runPrecompiled.
  destruct (Precompiled.precompiledContracts addr) as [ct|]; [intros _|discriminate].
  destruct (gas <? Precompiled.Gas ct input r).
  - eexists _, _, _. split; [reflexivity|]. intros e _. split; reflexivity.
  - destruct (Precompiled.Run ct input) as [rv [e|]].
    + eexists _, _, _. split; [reflexivity|]. intros e' _. split; reflexivity.
    + eexists _, _, _. split; [reflexivity|]. intros e' He. discriminate He.
Qed.

(** [run] returns whenever the frame does; an error other than a revert
    comes with no gas left. *)
Lemma run_ok c body tr :
  frame_ok P n body -> tinv P n tr ->
  exists ret gas err tr',
    run c body tr = Some (ret, gas, err, tr') /\ tinv P n tr' /\ text tr tr'
    /\ (forall e, err = Some e -> isReverted e = false -> gas = 0).
Proof.
  intros Hb Hi. unfold run.
  destruct (existsb _ _).
  { eexists _, _, _, _. split; [reflexivity|]. split; [exact Hi|].
    split; [apply text_refl|]. intros e He. discriminate He. }
  destruct (isPrecompiled (Contract.CodeAddress c) tr) eqn:Ep.
  { destruct (runPrecompiled_total _ (Contract.Input c) (Contract.Gas c)
                (Rev (config tr)) _ Ep) as (ret & g & err & -> & Hg).
    eexists _, _, _, _. split; [reflexivity|]. split; [exact Hi|].
    split; [apply text_refl|]. intros e He _. apply (Hg e He). }
  unfold EVM_Run. destruct (Hb tr Hi) as (ret & gas & err & tr' & -> & Hi' & Ht).
  eexists _, _, _, _. split; [reflexivity|]. split; [exact Hi'|]. split; [exact Ht|].
  intros e He Hr. destruct err as [e0|]; [|discriminate He].
  cbn in He. injection He as <-. rewrite Hr. reflexivity.
Qed.

Lemma revert_later x0 tr1 :
  ext (snd (Txn.Snapshot x0)) tr1.(txn) ->
  revert (fst (Txn.Snapshot x0)) tr1
  = Some (set_txn (Txn.set_txn (Txn.txn x0) tr1.(txn)) tr1).
Proof.
  intros He. unfold revert. rewrite (RevertToSnapshot_later _ _ He). reflexivity.
Qed.

Lemma tinv_revert x0 tr1 :
  inv P n x0 -> tinv P n tr1 ->
  tinv P n (set_txn (Txn.set_txn (Txn.txn x0) tr1.(txn)) tr1).
Proof. intros H0 H1. unfold tinv. cbn. apply inv_revert; assumption. Qed.

Lemma text_revert tr0 tr1 tree :
  text tr0 tr1 -> text tr0 (set_txn (Txn.set_txn tree tr1.(txn)) tr1).
Proof.
  intros [He Hc]. split; [|exact Hc]. cbn. eapply ext_trans; [exact He|apply ext_set_txn].
Qed.


Lemma isRevision_set_txn r x tr : isRevision r (set_txn x tr) = isRevision r tr.
Proof. reflexivity. Qed.

(** What [callEntry] hands to the frame. *)
Lemma callEntry_spec c k tr snap tr1 :
  callEntry c k tr = Some (snap, tr1) ->
  snap = fst (Txn.Snapshot tr.(txn))
  /\ ext (snd (Txn.Snapshot tr.(txn))) tr1.(txn)
  /\ tr1.(config) = tr.(config)
  /\ (tinv P n tr -> tinv P n tr1).
Proof.
  unfold callEntry. cbn [Txn.Snapshot].
  set (x1 := Txn.mk _ _ _ _).
  set (tr0 := set_txn (Txn.TouchAccount (Contract.Address c) x1) tr).
  assert (Hq0 : quiet x1 tr0.(txn)) by apply quiet_upsert.
  assert (H0 : tinv P n tr -> tinv P n tr0).
  { intros Hi. unfold tinv. eapply quiet_inv; [exact Hq0|].
    apply (inv_Snapshot _ Hi). }
  pose proof (transfer_quiet (Contract.Caller c) (Contract.Address c)
                (Contract.Value c) tr0) as [Hq Hc].
  destruct k;
    try (intros E; injection E as <- <-;
         split; [reflexivity|]; split; [apply quiet_ext; exact Hq0|];
         split; [reflexivity|exact H0]).
  destruct (transfer _ _ _ tr0) as [[e|] tr']; [discriminate|].
  intros E; injection E as <- <-. cbn [snd] in *.
  split; [reflexivity|]. split; [apply quiet_ext; eapply quiet_trans; eassumption|].
  split; [exact Hc|]. intros Hi. unfold tinv. eapply quiet_inv; [exact Hq|].
  apply H0, Hi.
Qed.


Lemma applyCall_entered c k body tr snap tr1 :
  callEntry c k tr = Some (snap, tr1) ->
  applyCall c k body tr =
  match run c body tr1 with
  | None => None
  | Some (retValue, gasLeft, None, tr2) => Some ((retValue, gasLeft, 0, None), tr2)
  | Some (retValue, gasLeft, Some err, tr2) =>
    match revert snap tr2 with
    | None => None
    | Some tr3 => Some ((if isReverted err then retValue else [], gasLeft, 0, Some err), tr3)
    end
  end.
Proof.
  unfold callEntry, applyCall. cbn [Txn.Snapshot].
  destruct k; try (intros E; injection E as <- <-; reflexivity).
  destruct (transfer _ _ _ _) as [[e|] tr']; [discriminate|].
  intros E; injection E as <- <-. reflexivity.
Qed.

Lemma applyCall_refused c k body tr :
  callEntry c k tr = None ->
  exists e tr', applyCall c k body tr = Some (([], int64 c.(Contract.Gas), 0, Some e), tr')
    /\ text tr tr' /\ (tinv P n tr -> tinv P n tr').
Proof.
  unfold callEntry, applyCall. cbn [Txn.Snapshot].
  set (x1 := Txn.mk _ _ _ _).
  set (tr0 := set_txn (Txn.TouchAccount (Contract.Address c) x1) tr).
  assert (Hq0 : quiet x1 tr0.(txn)) by apply quiet_upsert.
  pose proof (transfer_quiet (Contract.Caller c) (Contract.Address c)
                (Contract.Value c) tr0) as [Hq Hc].
  destruct k; try discriminate.
  destruct (transfer _ _ _ tr0) as [[e|] tr']; [intros _|discriminate].
  cbn [snd] in *. exists e, tr'. split; [reflexivity|].
  assert (Hx : ext tr.(txn) x1) by apply (ext_Snapshot tr.(txn)).
  split.
  - split; [|exact Hc]. eapply ext_trans; [exact Hx|].
    apply quiet_ext. eapply quiet_trans; eassumption.
  - intros Hi. unfold tinv. eapply quiet_inv; [exact Hq|].
    eapply quiet_inv; [exact Hq0|]. apply (inv_Snapshot _ Hi).
Qed.

(** What a frame that ran and failed leaves: the tree of the snapshot. *)
Lemma failed_frame_reverts x0 snap tr1 tr2 :
  snap = fst (Txn.Snapshot x0) ->
  ext (snd (Txn.Snapshot x0)) tr1.(txn) -> text tr1 tr2 ->
  revert snap tr2 = Some (set_txn (Txn.set_txn (Txn.txn x0) tr2.(txn)) tr2).
Proof.
  intros -> He [Ht _]. apply revert_later. eapply ext_trans; eassumption.
Qed.

Lemma applyCall_ok c k body tr :
  frame_ok P n body -> tinv P n tr ->
  exists res tr', applyCall c k body tr = Some (res, tr') /\ tinv P n tr' /\ text tr tr'.
Proof.
  intros Hb Hi. destruct (callEntry c k tr) as [[snap tr1]|] eqn:Ee.
  - rewrite (applyCall_entered _ _ body _ _ _ Ee).
    destruct (callEntry_spec _ _ _ _ _ Ee) as (Hs & He & Hc & Hi1).
    destruct (run_ok c body tr1 Hb (Hi1 Hi)) as (ret & gas & err & tr2 & -> & Hi2 & Ht & _).
    assert (Ht1 : text tr tr1).
    { split; [|exact Hc]. eapply ext_trans; [apply ext_Snapshot|exact He]. }
    destruct err as [e|].
    + rewrite (failed_frame_reverts _ _ _ _ Hs He Ht).
      eexists _, _. split; [reflexivity|]. split.
      * apply tinv_revert; assumption.
      * apply text_revert. eapply text_trans; eassumption.
    + eexists _, _. split; [reflexivity|]. split; [exact Hi2|].
      eapply text_trans; eassumption.
  - destruct (applyCall_refused c k body tr Ee) as (e & tr' & -> & Ht & Hi').
    eexists _, _. split; [reflexivity|]. split; [apply Hi', Hi | exact Ht].
Qed.


(** What [createEntry] hands to the frame: the snapshot holds the overlay
    after the caller's nonce went up. *)
Lemma createEntry_spec c tr c' snap tr1 :
  createEntry c tr = Some (c', snap, tr1) ->
  let x0 := Txn.IncrNonce c.(Contract.Caller) tr.(txn) in
  snap = fst (Txn.Snapshot x0)
  /\ ext (snd (Txn.Snapshot x0)) tr1.(txn)
  /\ tr1.(config) = tr.(config)
  /\ (tinv P n tr -> tinv P n tr1).
Proof.
  unfold createEntry.
  destruct (match Contract.Type_ c with
            | Evmc.Create => _ | Evmc.Create2 => _ | _ => None end) as [address|];
    [|discriminate].
  cbn [Contract.set_addresses Contract.Caller Contract.Address Contract.Value
       txn set_txn config].
  set (x0 := Txn.IncrNonce (Contract.Caller c) (txn tr)).
  destruct (hasCodeOrNonce address _); [discriminate|].
  cbn [Txn.Snapshot txn set_txn config].
  set (x1 := Txn.mk _ _ _ _).
  rewrite !isRevision_set_txn.
  set (tr0 := if isRevision Evmc.SpuriousDragon tr then _ else _).
  assert (Hq0 : quiet x1 tr0.(txn) /\ tr0.(config) = tr.(config)).
  { subst tr0. destruct (isRevision Evmc.SpuriousDragon tr); cbn.
    - split; [|reflexivity]. eapply quiet_trans; [apply quiet_CreateAccount|apply quiet_upsert].
    - split; [apply quiet_refl|reflexivity]. }
  destruct Hq0 as [Hq0 Hc0].
  pose proof (transfer_quiet (Contract.Caller c) address (Contract.Value c) tr0) as [Hq Hc].
  destruct (transfer _ _ _ tr0) as [[e|] tr']; [discriminate|].
  intros E; injection E as <- <- <-. cbn [snd] in *.
  split; [reflexivity|]. split; [apply quiet_ext; eapply quiet_trans; eassumption|].
  split; [congruence|]. intros Hi. unfold tinv.
  eapply quiet_inv; [exact Hq|]. eapply quiet_inv; [exact Hq0|].
  apply (inv_Snapshot x0). eapply quiet_inv; [|exact Hi]. apply quiet_upsert.
Qed.

Lemma createEntry_contract c tr c' snap tr1 :
  createEntry c tr = Some (c', snap, tr1) ->
  exists address, c' = Contract.set_addresses address c.
Proof.
  unfold createEntry.
  destruct (match Contract.Type_ c with
            | Evmc.Create => _ | Evmc.Create2 => _ | _ => None end) as [address|];
    [|discriminate].
  destruct (hasCodeOrNonce _ _); [discriminate|].
  cbn [Txn.Snapshot].
  destruct (transfer _ _ _ _) as [[e|] tr']; [discriminate|].
  intros E; injection E as <- _ _. exists address. reflexivity.
Qed.

Lemma applyCreate_entered c body tr c' snap tr1 :
  createEntry c tr = Some (c', snap, tr1) ->
  applyCreate c body tr =
  match run c' body tr1 with
  | None => None
  | Some (retValue, gasLeft, Some err, tr2) =>
    match revert snap tr2 with
    | None => None
    | Some tr3 =>
      Some ((if isReverted err then retValue else [], gasLeft, c'.(Contract.Address),
             Some err), tr3)
    end
  | Some (retValue, gasLeft, None, tr2) =>
    if isRevision Evmc.SpuriousDragon tr2 && (GoInt.len retValue >? spuriousDragonMaxCodeSize)
    then
      match revert snap tr2 with
      | None => None
      | Some tr3 =>
        Some (([], 0, c'.(Contract.Address),
               Some (errorString "evm: max code size exceeded")), tr3)
      end
    else
      let gasCost := int64 (GoInt.len retValue * 200) in
      if gasLeft <? gasCost then
        let err := errorString "contract creation code storage out of gas" in
        if isRevision Evmc.Homestead tr2 then
          match revert snap tr2 with
          | None => None
          | Some tr3 => Some (([], 0, c'.(Contract.Address), Some err), tr3)
          end
        else Some (([], gasLeft, c'.(Contract.Address), Some err), tr2)
      else
        Some (([], int64 (gasLeft - gasCost), c'.(Contract.Address), None),
              set_txn (Txn.SetCode c'.(Contract.Address) retValue tr2.(txn)) tr2)
  end.
Proof.
  unfold createEntry, applyCreate.
  destruct (match Contract.Type_ c with
            | Evmc.Create => _ | Evmc.Create2 => _ | _ => None end) as [address|];
    [|discriminate].
  destruct (hasCodeOrNonce _ _); [discriminate|].
  cbn [Txn.Snapshot].
  destruct (transfer _ _ _ _) as [[e|] tr']; [discriminate|].
  intros E; injection E as <- <- <-. reflexivity.
Qed.

Lemma applyCreate_not_entered c body tr :
  c.(Contract.Type_) = Evmc.Create \/ c.(Contract.Type_) = Evmc.Create2 ->
  createEntry c tr = None ->
  exists gas address e tr',
    applyCreate c body tr = Some (([], gas, address, Some e), tr')
    /\ text tr tr' /\ (tinv P n tr -> tinv P n tr').
Proof.
  intros Hty. unfold createEntry, applyCreate.
  destruct (match Contract.Type_ c with
            | Evmc.Create => _ | Evmc.Create2 => _ | _ => None end) as [address|] eqn:Ea;
    [|destruct Hty as [Hty|Hty]; rewrite Hty in Ea; discriminate].
  cbn [Contract.set_addresses Contract.Caller Contract.Address Contract.Value
       txn set_txn config].
  set (x0 := Txn.IncrNonce (Contract.Caller c) (txn tr)).
  assert (Hqx : quiet tr.(txn) x0) by apply quiet_upsert.
  destruct (hasCodeOrNonce address _).
  { intros _. eexists _, _, _, _. split; [reflexivity|]. split.
    - apply text_quiet. exact Hqx.
    - apply tinv_quiet. exact Hqx. }
  cbn [Txn.Snapshot txn set_txn config].
  set (x1 := Txn.mk _ _ _ _).
  rewrite !isRevision_set_txn.
  set (tr0 := if isRevision Evmc.SpuriousDragon tr then _ else _).
  assert (Hq0 : quiet x1 tr0.(txn) /\ tr0.(config) = tr.(config)).
  { subst tr0. destruct (isRevision Evmc.SpuriousDragon tr); cbn.
    - split; [|reflexivity]. eapply quiet_trans; [apply quiet_CreateAccount|apply quiet_upsert].
    - split; [apply quiet_refl|reflexivity]. }
  destruct Hq0 as [Hq0 Hc0].
  pose proof (transfer_quiet (Contract.Caller c) address (Contract.Value c) tr0) as [Hq Hc].
  destruct (transfer _ _ _ tr0) as [[e|] tr']; [intros _|discriminate].
  cbn [snd] in *. eexists _, _, _, _. split; [reflexivity|].
  assert (Hx : ext x0 x1) by apply (ext_Snapshot x0).
  split.
  - split; [|congruence]. eapply ext_trans; [apply quiet_ext; exact Hqx|].
    eapply ext_trans; [exact Hx|]. apply quiet_ext. eapply quiet_trans; eassumption.
  - intros Hi. unfold tinv. eapply quiet_inv; [exact Hq|].
    eapply quiet_inv; [exact Hq0|]. apply (inv_Snapshot x0).
    eapply quiet_inv; [exact Hqx|exact Hi].
Qed.


Lemma applyCreate_ok c body tr :
  c.(Contract.Type_) = Evmc.Create \/ c.(Contract.Type_) = Evmc.Create2 ->
  frame_ok P n body -> tinv P n tr ->
  exists res tr', applyCreate c body tr = Some (res, tr') /\ tinv P n tr' /\ text tr tr'.
Proof.
  intros Hty Hb Hi. destruct (createEntry c tr) as [[[c' snap] tr1]|] eqn:Ee.
  - rewrite (applyCreate_entered _ body _ _ _ _ Ee).
    destruct (createEntry_spec _ _ _ _ _ Ee) as (Hs & He & Hc & Hi1).
    set (x0 := Txn.IncrNonce (Contract.Caller c) (txn tr)) in *.
    assert (Hqx : quiet tr.(txn) x0) by apply quiet_upsert.
    assert (Hi0 : inv P n x0) by (eapply quiet_inv; eassumption).
    destruct (run_ok c' body tr1 Hb (Hi1 Hi)) as (ret & gas & err & tr2 & -> & Hi2 & Ht & _).
    assert (Ht1 : text tr tr1).
    { split; [|exact Hc]. eapply ext_trans; [apply quiet_ext; exact Hqx|].
      eapply ext_trans; [apply ext_Snapshot|exact He]. }
    assert (Ht2 : text tr tr2) by (eapply text_trans; eassumption).
    pose proof (failed_frame_reverts _ _ _ _ Hs He Ht) as Hr.
    assert (Hrev : tinv P n (set_txn (Txn.set_txn (Txn.txn x0) tr2.(txn)) tr2)
                   /\ text tr (set_txn (Txn.set_txn (Txn.txn x0) tr2.(txn)) tr2)).
    { split; [apply tinv_revert; assumption | apply text_revert; exact Ht2]. }
    destruct err as [e|].
    { rewrite Hr. eexists _, _. split; [reflexivity|]. exact Hrev. }
    destruct (isRevision Evmc.SpuriousDragon tr2 && _).
    { rewrite Hr. eexists _, _. split; [reflexivity|]. exact Hrev. }
    cbv zeta. destruct (gas <? _).
    + destruct (isRevision Evmc.Homestead tr2).
      * rewrite Hr. eexists _, _. split; [reflexivity|]. exact Hrev.
      * eexists _, _. split; [reflexivity|]. split; assumption.
    + eexists _, _. split; [reflexivity|]. split.
      * apply tinv_quiet; [apply quiet_upsert|exact Hi2].
      * eapply text_trans; [exact Ht2|]. apply text_quiet, quiet_upsert.
  - destruct (applyCreate_not_entered c body tr Hty Ee) as (g & a & e & tr' & -> & Ht & Hi').
    eexists _, _. split; [reflexivity|]. split; [apply Hi', Hi | exact Ht].
Qed.

Lemma Callx_ok c body tr :
  frame_ok P n body -> tinv P n tr ->
  exists res tr', Callx c body tr = Some (res, tr') /\ tinv P n tr' /\ text tr tr'.
Proof.
  intros Hb Hi. unfold Callx.
  destruct (Contract.Type_ c) eqn:Ety;
    try (apply applyCall_ok; assumption);
    apply applyCreate_ok; auto.
Qed.

Lemma Call_ok req body tr :
  frame_ok P n body -> tinv P n tr ->
  exists res tr', Call req body tr = Some (res, tr') /\ tinv P n tr' /\ text tr tr'.
Proof. intros Hb Hi. unfold Call. apply Callx_ok; assumption. Qed.

Lemma SetStorage_ok addr key value tr :
  tinv P n tr ->
  tinv P n (snd (SetStorage addr key value tr)) /\ text tr (snd (SetStorage addr key value tr)).
Proof.
  intros Hi. unfold SetStorage.
  pose proof (quiet_SetStorage addr key value tr.(txn)) as Hq.
  destruct (Txn.SetStorage addr key value tr.(txn)) as [st x]. cbn [snd] in *.
  split; [apply tinv_quiet | apply text_quiet]; assumption.
Qed.

Lemma Selfdestruct_ok addr beneficiary tr :
  tinv P n tr ->
  tinv P n (Selfdestruct addr beneficiary tr) /\ text tr (Selfdestruct addr beneficiary tr).
Proof.
  intros Hi. unfold Selfdestruct.
  set (x1 := if negb _ then _ else _).
  assert (H1 : quiet tr.(txn) x1).
  { subst x1. destruct (negb _); [apply quiet_putRefund|apply quiet_refl]. }
  assert (Hq : quiet tr.(txn)
                 (snd (Txn.Suicide addr
                         (Txn.AddBalance beneficiary (Txn.GetBalance x1 addr) x1)))).
  { eapply quiet_trans; [exact H1|]. eapply quiet_trans; [apply quiet_upsert|].
    apply quiet_Suicide. }
  split; [apply tinv_quiet | apply text_quiet]; assumption.
Qed.

Lemma EmitLog_ok addr topics data tr :
  P (Log.mk addr topics data) -> tinv P n tr ->
  tinv P n (EmitLog addr topics data tr) /\ text tr (EmitLog addr topics data tr).
Proof.
  intros HP Hi. split.
  - apply inv_EmitLog; assumption.
  - split; [apply ext_EmitLog|reflexivity].
Qed.

(** Every frame returns, keeps the snapshot list it found and adds only
    logs it is allowed to emit. *)
Lemma exec_ok p : emits P p -> frame_ok P n (exec p).
Proof.
  induction 1 as [ret gas err|k _ IH|addr key value k _ IH|addr topics data k HP _ IH
                 |addr beneficiary k _ IH|req callee k _ IHc _ IHk]; intros tr Hi; cbn [exec].
  - eexists _, _, _, _. split; [reflexivity|]. split; [exact Hi|apply text_refl].
  - apply IH, Hi.
  - destruct (SetStorage_ok addr key value tr Hi) as [Hi' Ht].
    destruct (SetStorage addr key value tr) as [st tr']. cbn [snd] in *.
    destruct (IH st tr' Hi') as (ret & gas & err & tr2 & E & Hi2 & Ht2).
    eexists _, _, _, _. split; [exact E|]. split; [exact Hi2|].
    exact (text_trans _ _ _ Ht Ht2).
  - destruct (EmitLog_ok addr topics data tr HP Hi) as [Hi' Ht].
    destruct (IH _ Hi') as (ret & gas & err & tr2 & E & Hi2 & Ht2).
    eexists _, _, _, _. split; [exact E|]. split; [exact Hi2|].
    exact (text_trans _ _ _ Ht Ht2).
  - destruct (Selfdestruct_ok addr beneficiary tr Hi) as [Hi' Ht].
    destruct (IH _ Hi') as (ret & gas & err & tr2 & E & Hi2 & Ht2).
    eexists _, _, _, _. split; [exact E|]. split; [exact Hi2|].
    exact (text_trans _ _ _ Ht Ht2).
  - destruct (Call_ok req (exec callee) tr IHc Hi) as (res & tr' & -> & Hi' & Ht).
    destruct (IHk res tr' Hi') as (ret & gas & err & tr2 & E & Hi2 & Ht2).
    eexists _, _, _, _. split; [exact E|]. split; [exact Hi2|].
    exact (text_trans _ _ _ Ht Ht2).
Qed.

End DriverFacts.

Section FrameTotality.
Import GoInt Err Transition.
Context `{X : Precompiled.Externals}.

Lemma emits_any p : emits (fun _ => True) p.
Proof. induction p; constructor; auto. Qed.

Lemma tinv_any tr : tinv (fun _ => True) 0 tr.
Proof.
  unfold tinv, inv, logsOK. split; [lia|]. split.
  - destruct (Txn.logs _); [|exact I]. apply Forall_forall. auto.
  - intros i t _ _. destruct (Txn.logs _); [|exact I]. apply Forall_forall. auto.
Qed.

(** Frames are total. *)
Lemma exec_total p tr :
  exists ret gas err tr', exec p tr = Some (ret, gas, err, tr') /\ text tr tr'.
Proof.
  destruct (exec_ok (fun _ => True) 0 p (emits_any p) tr (tinv_any tr))
    as (ret & gas & err & tr' & E & _ & Ht).
  eexists _, _, _, _. split; eassumption.
Qed.

End FrameTotality.

Section DriverTheorems.
Import GoInt Err Transition.
Context `{X : Precompiled.Externals}.

Lemma run_failed_gas c p tr ret gas e tr' :
  run c (exec p) tr = Some (ret, gas, Some e, tr') ->
  text tr tr' /\ (isReverted e = false -> gas = 0).
Proof.
  intros E.
  destruct (run_ok (fun _ => True) 0 c (exec p) tr
              (exec_ok _ 0 p (emits_any p)) (tinv_any tr))
    as (ret0 & gas0 & err0 & tr0 & E0 & _ & Ht & Hg).
  rewrite E in E0. injection E0 as <- <- <- <-.
  split; [exact Ht|]. apply Hg. reflexivity.
Qed.

Lemma run_text c p tr ret gas err tr' :
  run c (exec p) tr = Some (ret, gas, err, tr') -> text tr tr'.
Proof.
  intros E.
  destruct (run_ok (fun _ => True) 0 c (exec p) tr
              (exec_ok _ 0 p (emits_any p)) (tinv_any tr))
    as (ret0 & gas0 & err0 & tr0 & E0 & _ & Ht & Hg).
  rewrite E in E0. injection E0 as <- <- <- <-. exact Ht.
Qed.

(** C1: whenever the frame run by [applyCall] or by [applyCreate] finishes
    with an error, the driver reverts to the snapshot it took before the
    frame, so that the live overlay is again the tree of that snapshot (for
    [applyCreate] it was taken after the caller's nonce went up); the bytes
    the frame returned are kept only when the error is [ErrExecutionReverted]
    and are nil for every other error, for which the gas left is 0. This
    holds for every frame [p] and so at every depth of nested calls. *)
Theorem frame_error_reverts (p : prog) (c : Contract.t) (tr : t) :
  (forall k snap tr1 ret gas e tr2,
     callEntry c k tr = Some (snap, tr1) ->
     run c (exec p) tr1 = Some (ret, gas, Some e, tr2) ->
     exists tr',
       revert snap tr2 = Some tr'
       /\ applyCall c k (exec p) tr
          = Some ((if isReverted e then ret else [], gas, 0, Some e), tr')
       /\ Txn.txn tr'.(txn) = Txn.txn tr.(txn)
       /\ Txn.snapshot tr'.(txn) = Txn.snapshot tr.(txn)
       /\ (isReverted e = false -> gas = 0)) /\
  (forall c' snap tr1 ret gas e tr2,
     createEntry c tr = Some (c', snap, tr1) ->
     run c' (exec p) tr1 = Some (ret, gas, Some e, tr2) ->
     exists tr',
       revert snap tr2 = Some tr'
       /\ applyCreate c (exec p) tr
          = Some ((if isReverted e then ret else [], gas, c'.(Contract.Address), Some e),
                  tr')
       /\ Txn.txn tr'.(txn) = Txn.txn (Txn.IncrNonce c.(Contract.Caller) tr.(txn))
       /\ Txn.snapshot tr'.(txn) = Txn.snapshot tr.(txn)
       /\ (isReverted e = false -> gas = 0)).
Proof.
  split.
  - intros k snap tr1 ret gas e tr2 Ee Er.
    destruct (callEntry_spec (fun _ => True) 0 _ _ _ _ _ Ee) as (Hs & He & Hc & _).
    destruct (run_failed_gas _ _ _ _ _ _ _ Er) as [Ht Hg].
    pose proof (failed_frame_reverts _ _ _ _ Hs He Ht) as Hr.
    eexists. split; [exact Hr|].
    rewrite (applyCall_entered _ _ (exec p) _ _ _ Ee), Er, Hr.
    split; [reflexivity|]. split; [reflexivity|]. split; [|exact Hg].
    cbn. destruct Ht as [(_ & Hb & _) _]. destruct He as (_ & Hb1 & _).
    cbn in Hb1. congruence.
  - intros c' snap tr1 ret gas e tr2 Ee Er.
    destruct (createEntry_spec (fun _ => True) 0 _ _ _ _ _ Ee) as (Hs & He & Hc & _).
    destruct (run_failed_gas _ _ _ _ _ _ _ Er) as [Ht Hg].
    pose proof (failed_frame_reverts _ _ _ _ Hs He Ht) as Hr.
    eexists. split; [exact Hr|].
    rewrite (applyCreate_entered _ (exec p) _ _ _ _ Ee), Er, Hr.
    split; [reflexivity|]. split; [reflexivity|]. split; [|exact Hg].
    cbn. destruct Ht as [(_ & Hb & _) _]. destruct He as (_ & Hb1 & _).
    cbn in Hb1. rewrite Hb, Hb1.
    destruct (quiet_upsert (Contract.Caller c) true
                (fun object => StateObject.set_Nonce
                   (add64 (Account.Nonce (StateObject.Account object)) 1) object)
                (txn tr)) as (_ & Hq & _).
    exact Hq.
Qed.


Lemma int64_range (x : Z) : -(2 ^ 63) <= int64 x < 2 ^ 63.
Proof.
  unfold int64. cbv zeta.
  pose proof (Z.mod_pos_bound x (2 ^ 64) ltac:(lia)) as H.
  destruct (x mod 2 ^ 64 <? 2 ^ 63) eqn:E;
    [apply Z.ltb_lt in E | apply Z.ltb_ge in E]; lia.
Qed.

Lemma int64_id (x : Z) : -(2 ^ 63) <= x < 2 ^ 63 -> int64 x = x.
Proof.
  intros H. unfold int64. cbv zeta.
  destruct (Z_lt_le_dec x 0) as [Hn|Hp].
  - replace (x mod 2 ^ 64) with (x + 2 ^ 64)
      by (apply Z.mod_unique with (q := -1); lia).
    destruct (x + 2 ^ 64 <? 2 ^ 63) eqn:E;
      [apply Z.ltb_lt in E | apply Z.ltb_ge in E]; lia.
  - rewrite Z.mod_small by lia.
    destruct (x <? 2 ^ 63) eqn:E; [reflexivity|apply Z.ltb_ge in E; lia].
Qed.

(** The gas [run] reports is an [int64]. *)
Lemma run_gas_range c body tr ret gas err tr' :
  run c body tr = Some (ret, gas, err, tr') -> -(2 ^ 63) <= gas < 2 ^ 63.
Proof.
  unfold run. destruct (existsb _ _).
  { intros E; injection E as <- <- <- <-. apply int64_range. }
  destruct (isPrecompiled _ _).
  { unfold Precompiled.runPrecompiled.
    destruct (Precompiled.precompiledContracts _) as [ct|]; [|discriminate].
    destruct (_ <? _); [intros E; injection E as <- <- <- <-; lia|].
    destruct (Precompiled.Run ct _) as [rv [e|]];
      intros E; injection E as <- <- <- <-; [lia|apply int64_range]. }
  unfold EVM_Run. destruct (body tr) as [[[[r g] e] t']|]; [|discriminate].
  intros E; injection E as <- <- <- <-. apply int64_range.
Qed.

(** C4: when the init code of a creation returns without error, [applyCreate]
    first refuses, from Spurious Dragon on, a code longer than 24576 bytes:
    the frame is reverted, no gas is left and the creation fails. Otherwise
    it charges [int64(len(code)*200)], which is 200 per byte for any code
    below 2^63/200 bytes: with enough gas the code is stored and the charge
    taken off the gas left; with too little, on Homestead or later the frame
    is reverted to its snapshot with no gas left, and before Homestead the
    state the frame left is kept, no code is stored and the gas left is
    returned uncharged, the creation reporting the out-of-gas error in both
    cases. *)
Theorem code_deposit_spec (p : prog) (c : Contract.t) (tr : t)
    (c' : Contract.t) (snap : Z) (tr1 : t) (ret : list Z) (gas : Z) (tr2 : t) :
  createEntry c tr = Some (c', snap, tr1) ->
  run c' (exec p) tr1 = Some (ret, gas, None, tr2) ->
  let address := c'.(Contract.Address) in
  let cost := int64 (len ret * 200) in
  let reverted :=
    set_txn (Txn.set_txn (Txn.txn (Txn.IncrNonce c.(Contract.Caller) tr.(txn)))
               tr2.(txn)) tr2 in
  let oog := errorString "contract creation code storage out of gas" in
  applyCreate c (exec p) tr =
    Some (if isRevision Evmc.SpuriousDragon tr && (len ret >? spuriousDragonMaxCodeSize)
          then (([], 0, address, Some (errorString "evm: max code size exceeded")),
                reverted)
          else if gas <? cost
          then if isRevision Evmc.Homestead tr
               then (([], 0, address, Some oog), reverted)
               else (([], gas, address, Some oog), tr2)
          else (([], int64 (gas - cost), address, None),
                set_txn (Txn.SetCode address ret tr2.(txn)) tr2))
  /\ revert snap tr2 = Some reverted
  /\ (len ret * 200 < 2 ^ 63 ->
      cost = 200 * len ret
      /\ ((gas <? cost) = false -> int64 (gas - cost) = gas - 200 * len ret)).
Proof.
  intros Ee Er address cost reverted oog.
  destruct (createEntry_spec (fun _ => True) 0 _ _ _ _ _ Ee) as (Hs & He & Hc & _).
  pose proof (run_text _ _ _ _ _ _ _ Er) as Ht.
  pose proof (failed_frame_reverts _ _ _ _ Hs He Ht) as Hr.
  fold reverted in Hr.
  assert (Hrev : forall r, isRevision r tr2 = isRevision r tr).
  { intros r. unfold isRevision. destruct Ht as [_ Hc2]. rewrite Hc2, Hc. reflexivity. }
  split; [|split; [exact Hr|]].
  - rewrite (applyCreate_entered _ (exec p) _ _ _ _ Ee), Er, Hr, !Hrev.
    fold address. cbv zeta. fold cost.
    destruct (isRevision Evmc.SpuriousDragon tr && _); [reflexivity|].
    destruct (gas <? cost); [|reflexivity].
    destruct (isRevision Evmc.Homestead tr); reflexivity.
  - intros Hlen.
    assert (Hcost : cost = 200 * len ret).
    { unfold cost. rewrite int64_id; [lia|]. unfold len in *. lia. }
    split; [exact Hcost|]. intros Hge. apply Z.ltb_ge in Hge.
    pose proof (run_gas_range _ _ _ _ _ _ _ Er) as Hg.
    rewrite Hcost in *. apply int64_id. unfold len in *. lia.
Qed.









Lemma GetBalance_upsert addr create f (x : Txn.t) o :
  Txn.getStateObject x addr = Some o ->
  Txn.GetBalance (Txn.upsertAccount addr create f x) addr
  = if (f o).(StateObject.Deleted) then 0
    else Z.abs (f o).(StateObject.Account).(Account.Balance).
Proof.
  intros Ho. unfold Txn.upsertAccount, Txn.GetBalance. rewrite Ho.
  rewrite getStateObject_insert. destruct (StateObject.Deleted (f o)); reflexivity.
Qed.

(** C3, where the code departs from it: a message with the right nonce and
    the funds for its gas, which then fails a later test of the pre-check
    (intrinsic-gas overflow, gas below the intrinsic gas, balance below the
    value), makes [Write] return that error with the price of the gas already
    taken from the sender's balance in the overlay. *)
Theorem preCheck_failure_keeps_gas_purchase (msg : Message.t) (body : frame) (tr : t)
    (e : error) :
  Txn.GetNonce tr.(txn) msg.(Message.From) = msg.(Message.Nonce) ->
  0 < msg.(Message.GasPrice) * msg.(Message.Gas)
    <= Txn.GetBalance tr.(txn) msg.(Message.From) ->
  fst (fst (preCheck msg tr)) = Some e ->
  exists tr',
    Write msg body tr = Some (inr e, tr')
    /\ Txn.GetBalance tr'.(txn) msg.(Message.From)
       = Txn.GetBalance tr.(txn) msg.(Message.From)
         - msg.(Message.GasPrice) * msg.(Message.Gas).
Proof.
  intros Hn Hb. unfold Write, applyImpl, preCheck.
  rewrite Hn, Z.eqb_refl. cbn [negb].
  set (amount := msg.(Message.GasPrice) * msg.(Message.Gas)) in *.
  unfold Txn.SubBalance.
  destruct (Z.sgn amount =? 0) eqn:Es; [apply Z.eqb_eq in Es; lia|].
  destruct (Txn.GetBalance (txn tr) (Message.From msg) <? amount) eqn:El;
    [apply Z.ltb_lt in El; lia|].
  set (x := Txn.upsertAccount _ _ _ _).
  assert (Hx : Txn.GetBalance x (Message.From msg)
               = Txn.GetBalance (txn tr) (Message.From msg) - amount).
  { subst x. unfold Txn.GetBalance in Hb |- * at 2.
    destruct (Txn.getStateObject (txn tr) (Message.From msg)) as [o|] eqn:Eo; [|lia].
    rewrite (GetBalance_upsert _ _ _ _ o Eo). cbn.
    rewrite (getStateObject_live _ _ _ Eo). lia. }
  destruct (TransactionGasCost _ _ _) as [g [e0|]].
  { cbn. intros E; injection E as <-. eexists. split; [reflexivity|exact Hx]. }
  destruct (_ >? _).
  { cbn. intros E; injection E as <-. eexists. split; [reflexivity|exact Hx]. }
  destruct (Txn.GetBalance _ _ <? Message.Value msg).
  { cbn. intros E; injection E as <-. eexists. split; [reflexivity|exact Hx]. }
  cbn. discriminate.
Qed.

(** The two tests made before the gas is bought do leave the overlay as it
    was. *)
Lemma preCheck_early_failure_unchanged (msg : Message.t) (body : frame) (tr : t) :
  Txn.GetNonce tr.(txn) msg.(Message.From) <> msg.(Message.Nonce)
  \/ Txn.GetBalance tr.(txn) msg.(Message.From)
     < msg.(Message.GasPrice) * msg.(Message.Gas) ->
  exists e, Write msg body tr = Some (inr e, tr).
Proof.
  intros H. unfold Write, applyImpl, preCheck.
  destruct (Txn.GetNonce (txn tr) (Message.From msg) =? Message.Nonce msg) eqn:En;
    cbn [negb].
  2:{ eexists. destruct tr. reflexivity. }
  destruct H as [H|H]; [apply Z.eqb_eq in En; contradiction|].
  unfold Txn.SubBalance.
  destruct (Z.sgn _ =? 0) eqn:Es.
  { apply Z.eqb_eq in Es.
    assert (Ha : Message.GasPrice msg * Message.Gas msg = 0)
      by (apply Z.sgn_null_iff; exact Es).
    clear Es. rename Ha into Es.
    unfold Txn.GetBalance in H.
    destruct (Txn.getStateObject (txn tr) (Message.From msg)) as [o|] eqn:Eo; [|lia].
    exfalso. rewrite Es in H. revert H Eo. unfold Txn.getStateObject.
    destruct (Txn.objs _ !! _) as [obj|].
    - destruct (StateObject.Deleted obj); [discriminate|].
      intros H E; injection E as <-. cbn in H. lia.
    - destruct (Snapshot.GetAccount _ _) as [a|]; [|discriminate].
      intros H E; injection E as <-. cbn in H. lia. }
  apply Z.ltb_lt in H. rewrite H. cbn.
  eexists. destruct tr. reflexivity.
Qed.

End DriverTheorems.

Section DriverExamples.
Import GoInt Err Transition Samples.
Local Existing Instance Precompiled.sampleExternals.

Lemma frame_error_reverts_witness :
  (exists tr',
     applyCall (Contract.NewContractCall 0 alice bob (Some 5) 50000 []) Evmc.Call
       (exec (writeThenStop (Some errOutOfGas))) (start Evmc.Istanbul)
     = Some (([], 0, 0, Some (evmError errOutOfGas)), tr')
     /\ Txn.txn tr'.(txn) = Txn.emptyTree)
  /\ (exists tr',
     applyCall (Contract.NewContractCall 0 alice bob (Some 5) 50000 []) Evmc.Call
       (exec (writeThenStop (Some ErrExecutionReverted))) (start Evmc.Istanbul)
     = Some (([9], 123, 0, Some (evmError ErrExecutionReverted)), tr')
     /\ Txn.txn tr'.(txn) = Txn.emptyTree).
Proof.
  split.
  - edestruct (proj1 (frame_error_reverts (writeThenStop (Some errOutOfGas))
                 (Contract.NewContractCall 0 alice bob (Some 5) 50000 [])
                 (start Evmc.Istanbul)) Evmc.Call)
      as (tr' & _ & Ha & Ht & _ & Hg); [reflexivity | reflexivity |].
    exists tr'. split; [|exact Ht].
    rewrite Ha. rewrite (Hg eq_refl). reflexivity.
  - edestruct (proj1 (frame_error_reverts (writeThenStop (Some ErrExecutionReverted))
                 (Contract.NewContractCall 0 alice bob (Some 5) 50000 [])
                 (start Evmc.Istanbul)) Evmc.Call)
      as (tr' & _ & Ha & Ht & _); [reflexivity | reflexivity |].
    exists tr'. split; [exact Ha | exact Ht].
Defined.


Lemma code_deposit_spec_witness :
  exists tr',
    applyCreate (Contract.NewContractCreation 0 alice 0 (Some 5) 100000 [])
      (exec (Ret [1; 2; 3] 1000 None)) (start Evmc.Istanbul)
    = Some (([], 400, 102, None), tr')
    /\ Txn.GetCode tr'.(txn) 102 = [1; 2; 3].
Proof.
  edestruct (code_deposit_spec (Ret [1; 2; 3] 1000 None)
               (Contract.NewContractCreation 0 alice 0 (Some 5) 100000 [])
               (start Evmc.Istanbul))
    as (Ha & _ & _); [reflexivity | reflexivity |].
  eexists. split; [rewrite Ha; reflexivity | reflexivity].
Defined.

(** Before Homestead a deposit the gas does not cover fails the creation
    and keeps what the frame did: the value stays with the new account, which
    has no code, and the gas left comes back whole. *)
Lemma frontier_deposit_failure_keeps_state :
  exists tr',
    applyCreate (Contract.NewContractCreation 0 alice 0 (Some 5) 100000 [])
      (exec (Ret [1; 2; 3] 100 None)) (start Evmc.Frontier)
    = Some (([], 100, 102,
             Some (errorString "contract creation code storage out of gas")), tr')
    /\ Txn.GetCode tr'.(txn) 102 = []
    /\ Txn.GetBalance tr'.(txn) 102 = 5.
Proof. eexists. split; [vm_compute; reflexivity|]. split; reflexivity. Qed.

(** Against C4 as stated: on Istanbul an init code that returns 24577 bytes
    with 10000000 gas left, enough for the 4915400 of the deposit, is not
    charged 200 per byte: the creation fails with no gas left and no code
    stored. *)
Lemma oversize_code_not_charged :
  exists tr',
    applyCreate (Contract.NewContractCreation 0 alice 0 (Some 5) 10000000 [])
      (exec (Ret (repeat 0 (Z.to_nat 24577)) 10000000 None)) (start Evmc.Istanbul)
    = Some (([], 0, 102, Some (errorString "evm: max code size exceeded")), tr')
    /\ Txn.GetCode tr'.(txn) 102 = []
    /\ 200 * len (repeat 0 (Z.to_nat 24577)) = 4915400.
Proof. eexists. split; [vm_compute; reflexivity|]. split; vm_compute; reflexivity. Qed.


Lemma preCheck_failure_keeps_gas_purchase_witness :
  exists tr',
    Write (callBob 0 100) (exec (Ret [] 0 None)) (start Evmc.Istanbul)
    = Some (inr (errorString "not enough gas supplied for intrinsic gas costs"), tr')
    /\ Txn.GetBalance (start Evmc.Istanbul).(txn) alice = 100000
    /\ Txn.GetBalance tr'.(txn) alice = 99900.
Proof.
  destruct (preCheck_failure_keeps_gas_purchase (callBob 0 100) (exec (Ret [] 0 None))
              (start Evmc.Istanbul)
              (errorString "not enough gas supplied for intrinsic gas costs"))
    as (tr' & E & Hb); [reflexivity | vm_compute; split; congruence | reflexivity |].
  exists tr'. split; [exact E|]. split; [reflexivity|].
  etransitivity; [exact Hb | vm_compute; reflexivity].
Defined.


(** Two transactions on the same [Txn]: the second output holds the logs of
    the second only. *)
Lemma Write_twice_logs :
  exists out1 tr1 out2 tr2,
    Write (callBob 0 50000) (exec twoLogs) (start Evmc.Istanbul) = Some (inl out1, tr1)
    /\ Write (callBob 1 40000) (exec (HostEmitLog carol [2] [20] (Ret [] 500 None))) tr1
       = Some (inl out2, tr2)
    /\ out1.(Output.Logs) = [log1; log3]
    /\ out2.(Output.Logs) = [log2].
Proof.
  eexists _, _, _, _. split; [vm_compute; reflexivity|].
  split; [vm_compute; reflexivity|]. split; reflexivity.
Qed.


End DriverExamples.
